(** * Lunar astrophotography planner: a shallow embedding of [photo.py]

    The development follows the layout of the Python module: the enums and
    dataclasses first, then the calculators ([AstronomyCalculator],
    [CameraPresets], [ExposureCalculator], [TimelapseCalculator]) and the
    session planner ([AstroSession]).

    Conventions of the embedding.
    - A Python [int] is a [Z].
    - A Python [float] is a real number of [R]: the arithmetic of the
      formulas is exact, rounding, infinities and NaN are outside the model.
      [math.sin], [math.cos] and [math.pi] are [sin], [cos] and [PI].
    - A [datetime.datetime] is the record of its calendar fields; adding a
      [timedelta] goes through the proleptic Gregorian ordinal exactly as
      the [datetime] module does, and raises [OverflowError] outside the
      years 1..9999.
    - A call that can raise returns a [result]: [Ok v] or [Raise e]. *)

From Stdlib Require Import ZArith Reals Lra Lia List Bool Ascii String
  DecimalString Sorting.Sorted.
Import ListNotations.

Open Scope Z_scope.

(** ** Exceptions and results *)

(** The exceptions the interpreter or the standard library can raise on the
    paths modelled here, and [InvalidTimelapseParameters], the dedicated
    condition that the specification names for the timelapse calculator
    (no statement of [photo.py] raises it). *)
Inductive exception : Type :=
  | ZeroDivisionError
  | ValueError
  | OverflowError
  | InvalidTimelapseParameters.

Inductive result (A : Type) : Type :=
  | Ok (a : A)
  | Raise (e : exception).

Arguments Ok {A} a.
Arguments Raise {A} e.

Definition bind {A B : Type} (r : result A) (k : A -> result B) : result B :=
  match r with
  | Ok a => k a
  | Raise e => Raise e
  end.

Notation "x <- r ;; k" := (bind r (fun x => k))
  (at level 61, r at next level, right associativity).

(** A [for] loop whose body appends one value per element and may raise:
    the first exception aborts the loop. *)
Fixpoint for_each {A B : Type} (body : A -> result B) (l : list A)
  : result (list B) :=
  match l with
  | [] => Ok []
  | a :: l' =>
      b <- body a ;;
      bs <- for_each body l' ;;
      Ok (b :: bs)
  end.

(** ** Python built-ins *)

(** [range(start, stop, step)], materialised; [step = 0] is a [ValueError]. *)
Definition range_len (start stop step : Z) : Z :=
  if 0 <? step then
    if start <? stop then (stop - start - 1) / step + 1 else 0
  else
    if stop <? start then (start - stop - 1) / (- step) + 1 else 0.

Definition py_range (start stop step : Z) : result (list Z) :=
  if step =? 0 then Raise ValueError
  else Ok (map (fun k => start + Z.of_nat k * step)
               (seq 0 (Z.to_nat (range_len start stop step)))).

(** Comparison of floats as a boolean. *)
Definition float_lt (x y : R) : bool := if Rlt_dec x y then true else false.

(** [x % m] on floats, for a positive modulus: the result has the sign of
    the modulus. *)
Definition float_mod (x m : R) : R := (x - m * IZR (Zfloor (x / m)))%R.

(** [math.radians] and [math.degrees]. *)
Definition radians (x : R) : R := (x * PI / 180)%R.
Definition degrees (x : R) : R := (x * 180 / PI)%R.

(** [x / y] on numbers: true division, a zero divisor raises. *)
Definition true_div (x y : R) : result R :=
  if Req_dec_T y 0 then Raise ZeroDivisionError else Ok (x / y)%R.

(** [round(x, ndigits)]: to the nearest multiple of [10 ^ -ndigits], a tie
    going to the even one. *)
Definition round_half_even (x : R) : Z :=
  let f := Zfloor x in
  let r := (x - IZR f)%R in
  if Rlt_dec r (1 / 2) then f
  else if Rlt_dec (1 / 2) r then f + 1
  else if Z.even f then f else f + 1.

Definition py_round (x : R) (ndigits : nat) : R :=
  (IZR (round_half_even (x * 10 ^ ndigits)) / 10 ^ ndigits)%R.

(** ** The [datetime] module *)

Record datetime : Type := mk_datetime {
  year : Z;
  month : Z;
  day : Z;
  hour : Z;
  minute : Z;
  second : Z;
  microsecond : Z
}.

Record timedelta : Type := mk_timedelta {
  days : Z;
  seconds : Z;
  microseconds : Z
}.

Definition MAXORDINAL : Z := 3652059.

Definition DAYS_IN_MONTH : list Z :=
  [-1; 31; 28; 31; 30; 31; 30; 31; 31; 30; 31; 30; 31].

Definition DAYS_BEFORE_MONTH : list Z :=
  [-1; 0; 31; 59; 90; 120; 151; 181; 212; 243; 273; 304; 334].

Definition table (t : list Z) (i : Z) : Z := nth (Z.to_nat i) t 0.

Definition is_leap (y : Z) : bool :=
  (y mod 4 =? 0) && (negb (y mod 100 =? 0) || (y mod 400 =? 0)).

Definition days_before_year (y : Z) : Z :=
  let y := y - 1 in
  y * 365 + y / 4 - y / 100 + y / 400.

Definition days_in_month (y m : Z) : Z :=
  if (m =? 2) && is_leap y then 29 else table DAYS_IN_MONTH m.

Definition days_before_month (y m : Z) : Z :=
  table DAYS_BEFORE_MONTH m + (if (2 <? m) && is_leap y then 1 else 0).

Definition ymd2ord (y m d : Z) : Z :=
  days_before_year y + days_before_month y m + d.

Definition DI400Y : Z := 146097.
Definition DI100Y : Z := 36524.
Definition DI4Y : Z := 1461.

Definition ord2ymd (n : Z) : Z * Z * Z :=
  let n := n - 1 in
  let n400 := n / DI400Y in
  let n := n mod DI400Y in
  let y := n400 * 400 + 1 in
  let n100 := n / DI100Y in
  let n := n mod DI100Y in
  let n4 := n / DI4Y in
  let n := n mod DI4Y in
  let n1 := n / 365 in
  let n := n mod 365 in
  let y := y + n100 * 100 + n4 * 4 + n1 in
  if (n1 =? 4) || (n100 =? 4) then (y - 1, 12, 31)
  else
    let leapyear := (n1 =? 3) && (negb (n4 =? 24) || (n100 =? 3)) in
    let m := Z.shiftr (n + 50) 5 in
    let preceding :=
      table DAYS_BEFORE_MONTH m + (if (2 <? m) && leapyear then 1 else 0) in
    if n <? preceding then
      let m := m - 1 in
      let preceding :=
        preceding
        - (table DAYS_IN_MONTH m + (if (m =? 2) && leapyear then 1 else 0)) in
      (y, m, n - preceding + 1)
    else (y, m, n - preceding + 1).

Definition toordinal (t : datetime) : Z := ymd2ord (year t) (month t) (day t).

(** The fields of a date and of a time of day are in range. *)
Definition well_formed (t : datetime) : Prop :=
  1 <= month t <= 12 /\
  1 <= day t <= days_in_month (year t) (month t) /\
  0 <= hour t < 24 /\
  0 <= minute t < 60 /\
  0 <= second t < 60 /\
  0 <= microsecond t < 1000000.

(** The invariant of every [datetime] object: the constructor refuses
    anything else. *)
Definition valid_datetime (t : datetime) : Prop :=
  1 <= year t <= 9999 /\ well_formed t.

(** [timedelta(minutes=i)], normalised. *)
Definition timedelta_minutes (i : Z) : result timedelta :=
  let s := i * 60 in
  let d := s / 86400 in
  if 999999999 <? Z.abs d then Raise OverflowError
  else Ok (mk_timedelta d (s mod 86400) 0).

(** [t + td]. *)
Definition datetime_add (t : datetime) (td : timedelta) : result datetime :=
  let us := microsecond t + microseconds td in
  let s := hour t * 3600 + minute t * 60 + second t + seconds td
           + us / 1000000 in
  let us := us mod 1000000 in
  let d := toordinal t + days td + s / 86400 in
  let s := s mod 86400 in
  if (0 <? d) && (d <=? MAXORDINAL) then
    let '(y, m, dd) := ord2ymd d in
    Ok (mk_datetime y m dd (s / 3600) ((s mod 3600) / 60) ((s mod 3600) mod 60)
                    us)
  else Raise OverflowError.

(** [t + timedelta(minutes=i)]. *)
Definition add_minutes (t : datetime) (i : Z) : result datetime :=
  td <- timedelta_minutes i ;;
  datetime_add t td.

(** The comparison of two [datetime] objects: the tuples of their fields,
    lexicographically. *)
Definition datetime_cmp (a b : datetime) : comparison :=
  match year a ?= year b with
  | Eq =>
    match month a ?= month b with
    | Eq =>
      match day a ?= day b with
      | Eq =>
        match hour a ?= hour b with
        | Eq =>
          match minute a ?= minute b with
          | Eq =>
            match second a ?= second b with
            | Eq => microsecond a ?= microsecond b
            | c => c
            end
          | c => c
          end
        | c => c
        end
      | c => c
      end
    | c => c
    end
  | c => c
  end.

Definition datetime_lt (a b : datetime) : Prop := datetime_cmp a b = Lt.

(** ** Enums *)

Inductive SkyCondition : Type :=
  | CLEAR
  | ATMOSPHERIC
  | LOW_HORIZON
  | DEEP_SKY.

(** ** Data classes *)

Record Position : Type := mk_Position {
  azimuth : R;
  elevation : R
}.

Definition is_visible (p : Position) : bool := float_lt 0 (elevation p).

Record CameraConfig : Type := mk_CameraConfig {
  iso : Z;
  f_stop : R;
  shutter : R;
  focal_length : Z;
  focus : string
}.

(** The constructor with [focus] left to its default. *)
Definition CameraConfig4 (iso : Z) (f_stop shutter : R) (focal_length : Z)
  : CameraConfig :=
  mk_CameraConfig iso f_stop shutter focal_length "infinity".

Record CelestialData : Type := mk_CelestialData {
  position : Position;
  phase : R;
  distance_km : R;
  angular_size_arcmin : R;
  magnitude : R
}.

Definition condition (c : CelestialData) : SkyCondition :=
  if float_lt (elevation (position c)) 15 then LOW_HORIZON
  else if float_lt (elevation (position c)) 30 then ATMOSPHERIC
  else CLEAR.

Record ShootingPlan : Type := mk_ShootingPlan {
  timestamp : datetime;
  celestial_data : CelestialData;
  camera_config : CameraConfig;
  exposure_comp : R
}.

(** ** Calculators *)

Module AstronomyCalculator.

Definition julian_day_number (t : datetime) : Z :=
  let a := (14 - month t) / 12 in
  let y := year t + 4800 - a in
  let m := month t + 12 * a - 3 in
  day t + (153 * m + 2) / 5 + 365 * y + y / 4 - y / 100 + y / 400 - 32045.

Definition day_fraction (t : datetime) : R :=
  ((IZR (hour t) - 12) / 24 + IZR (minute t) / 1440
   + IZR (second t) / 86400)%R.

Definition julian_day (t : datetime) : R :=
  (IZR (julian_day_number t) + day_fraction t)%R.

Definition lunar_position (jd lat lon : R) : R * R :=
  let d := (jd - 2451545.0)%R in
  let L := radians (float_mod (218.316 + 13.176396 * d) 360) in
  let M := radians (float_mod (134.963 + 13.064993 * d) 360) in
  let M_sun := radians (float_mod (357.528 + 0.985600 * d) 360) in
  let lon_ecl :=
    (L + radians (6.289 * sin M - 1.274 * sin (M - 2 * M_sun)
                  + 0.658 * sin (2 * M_sun)))%R in
  let lat_ecl :=
    radians (5.128 * sin (radians (93.272 + 13.229350 * d))) in
  let azimuth := float_mod (degrees lon_ecl + 180) 360 in
  let elevation := Rmax (-90) (Rmin 90 (degrees lat_ecl + 30)) in
  (azimuth, elevation).

Definition lunar_phase (jd : R) : R :=
  let d := (jd - 2451545.0)%R in
  let L := radians (float_mod (218.316 + 13.176396 * d) 360) in
  let S := radians (float_mod (280.466 + 0.985647 * d) 360) in
  let phase_angle := (L - S)%R in
  ((1 + cos phase_angle) / 2)%R.

End AstronomyCalculator.

Module CameraPresets.

Definition PRESETS (c : SkyCondition) : CameraConfig :=
  match c with
  | CLEAR => CameraConfig4 200 8.0 (1 / 125) 300
  | ATMOSPHERIC => CameraConfig4 400 5.6 (1 / 200) 250
  | LOW_HORIZON => CameraConfig4 800 4.0 (1 / 160) 400
  | DEEP_SKY => CameraConfig4 1600 2.8 30 50
  end.

Definition get_config (c : SkyCondition) : CameraConfig := PRESETS c.

Definition adjust_for_phase (config : CameraConfig) (phase : R)
  : CameraConfig :=
  let brightness_factor := (0.3 + 0.7 * phase)%R in
  let '(new_iso, new_f_stop) :=
    if float_lt brightness_factor 0.5
    then (Z.min 3200 (iso config * 2), Rmax 2.8 (f_stop config - 1))
    else (iso config, f_stop config) in
  CameraConfig4 new_iso new_f_stop (shutter config) (focal_length config).

End CameraPresets.

Module ExposureCalculator.

Definition atmospheric_compensation (elevation : R) : R :=
  if float_lt elevation 10 then 2.0
  else if float_lt elevation 20 then 1.0
  else if float_lt elevation 30 then 0.5
  else 0.0.

Definition phase_compensation (phase : R) : R := (-2.5 * phase + 1.5)%R.

Definition total_compensation (c : CelestialData) : R :=
  (atmospheric_compensation (elevation (position c))
   + phase_compensation (phase c))%R.

End ExposureCalculator.

Module TimelapseCalculator.

(** The dictionary that [calculate_interval] returns, one field per key. *)
Record settings : Type := mk_settings {
  interval_seconds : R;
  total_frames : Z;
  storage_gb : R;
  battery_hours : R;
  playback_fps : Z
}.

Definition calculate_interval
    (duration_hours : R) (target_fps final_duration_seconds : Z)
  : result settings :=
  let total_seconds := (duration_hours * 3600)%R in
  let target_frames := target_fps * final_duration_seconds in
  interval <- true_div total_seconds (IZR target_frames) ;;
  let storage := (IZR (target_frames * 25) / 1024)%R in
  let battery := (duration_hours * 0.75)%R in
  Ok (mk_settings (py_round interval 1) target_frames (py_round storage 1)
                  (py_round battery 1) target_fps).

End TimelapseCalculator.

(** ** The session planner *)

Module AstroSession.

Record t : Type := mk {
  lat : R;
  lon : R
}.

Definition get_lunar_data (self : t) (ts : datetime) : CelestialData :=
  let jd := AstronomyCalculator.julian_day ts in
  let '(azimuth, elevation) :=
    AstronomyCalculator.lunar_position jd (lat self) (lon self) in
  let phase := AstronomyCalculator.lunar_phase jd in
  let distance := 384400%R in
  let angular_size := 31.1%R in
  let magnitude := (-12.7 * phase - 2.5)%R in
  mk_CelestialData (mk_Position azimuth elevation) phase distance
                   angular_size magnitude.

Definition create_shooting_plan (self : t) (ts : datetime) : ShootingPlan :=
  let lunar_data := get_lunar_data self ts in
  let base_config := CameraPresets.get_config (condition lunar_data) in
  let adjusted_config :=
    CameraPresets.adjust_for_phase base_config (phase lunar_data) in
  let exposure_comp := ExposureCalculator.total_compensation lunar_data in
  mk_ShootingPlan ts lunar_data adjusted_config exposure_comp.

(** [now] is the value of [datetime.now()] at the call. *)
Definition generate_sequence (self : t) (now : datetime)
    (duration_minutes interval_minutes : Z) : result (list ShootingPlan) :=
  let start_time := now in
  offsets <- py_range 0 duration_minutes interval_minutes ;;
  for_each
    (fun i =>
       ts <- add_minutes start_time i ;;
       Ok (create_shooting_plan self ts))
    offsets.

End AstroSession.

(** ** Reference notions for the statements *)

(** The seconds elapsed at [t] since the midnight that opens ordinal 0, and
    the same instant in microseconds. *)
Definition epoch_seconds (t : datetime) : Z :=
  toordinal t * 86400 + hour t * 3600 + minute t * 60 + second t.

Definition epoch_microseconds (t : datetime) : Z :=
  epoch_seconds t * 1000000 + microsecond t.

(** The instant [i] minutes after [t] is still a [datetime]: it falls before
    the end of the year 9999. *)
Definition representable (t : datetime) (i : Z) : Prop :=
  epoch_seconds t + 60 * i < (MAXORDINAL + 1) * 86400.

(** The calendar fields of the instant [i] minutes after [t]. *)
Definition shift_minutes (t : datetime) (i : Z) : datetime :=
  let total := epoch_seconds t + 60 * i in
  let s := total mod 86400 in
  let '(y, m, dd) := ord2ymd (total / 86400) in
  mk_datetime y m dd (s / 3600) ((s mod 3600) / 60) ((s mod 3600) mod 60)
              (microsecond t).

(** The whole minutes from [t] to [u]. *)
Definition offset_minutes (t u : datetime) : Z :=
  (epoch_seconds u - epoch_seconds t) / 60.

(** The Julian Day Number of a calendar date as a plain day count: the days
    elapsed since the epoch of the Julian period, 24 November of the year
    -4713 of the proleptic Gregorian calendar. *)
Definition standard_jdn (y m d : Z) : Z :=
  ymd2ord y m d - ymd2ord (-4713) 11 24.

(** The month and day that [ord2ymd] derives from the day [n] of a year
    (counted from 0), and the check that they are the right ones. *)
Definition month_day (leapyear : bool) (n : Z) : Z * Z :=
  let m := Z.shiftr (n + 50) 5 in
  let preceding :=
    table DAYS_BEFORE_MONTH m + (if (2 <? m) && leapyear then 1 else 0) in
  if n <? preceding then
    let m := m - 1 in
    let preceding :=
      preceding
      - (table DAYS_IN_MONTH m + (if (m =? 2) && leapyear then 1 else 0)) in
    (m, n - preceding + 1)
  else (m, n - preceding + 1).

Definition month_day_ok (leapyear : bool) (n : Z) : bool :=
  let '(m, d) := month_day leapyear n in
  (1 <=? m) && (m <=? 12) && (1 <=? d)
  && (d <=? (if (m =? 2) && leapyear then 29 else table DAYS_IN_MONTH m))
  && (table DAYS_BEFORE_MONTH m + (if (2 <? m) && leapyear then 1 else 0) + d
      =? n + 1).

Definition upto (n : nat) : list Z := map Z.of_nat (seq 0 n).

(** ** Export of plans and sessions *)

(** The character of a decimal digit. *)
Definition digit (n : Z) : ascii := ascii_of_nat (48 + Z.to_nat n).

(** [n] on [w] digits, zero-padded: the conversions [%02d], [%04d] and
    [%06d] on the numbers they meet here. *)
Fixpoint fixed_digits (w : nat) (n : Z) : string :=
  match w with
  | O => EmptyString
  | S w' => fixed_digits w' (n / 10) ++ String (digit (n mod 10)) EmptyString
  end.

(** [t.strftime('%H:%M:%S')]. *)
Definition strftime_HMS (t : datetime) : string :=
  fixed_digits 2 (hour t) ++ ":" ++ fixed_digits 2 (minute t) ++ ":"
  ++ fixed_digits 2 (second t).

(** [t.isoformat()] of a naive [datetime]: the microseconds are printed
    only when they are not zero. *)
Definition isoformat (t : datetime) : string :=
  fixed_digits 4 (year t) ++ "-" ++ fixed_digits 2 (month t) ++ "-"
  ++ fixed_digits 2 (day t) ++ "T" ++ strftime_HMS t
  ++ (if microsecond t =? 0 then EmptyString
      else "." ++ fixed_digits 6 (microsecond t)).

(** The format [:.1f]: the sign, the integer part and one decimal of the
    value rounded to the nearest tenth, a tie going to the even one. *)
Definition format_1f (x : R) : string :=
  let n := round_half_even (Rabs x * 10) in
  (if float_lt x 0 then "-" else EmptyString)
  ++ NilZero.string_of_uint (N.to_uint (Z.to_N (n / 10)))
  ++ "." ++ String (digit (n mod 10)) EmptyString.

(** The degree sign, as the two bytes of its UTF-8 encoding. *)
Definition degree_sign : string :=
  String (ascii_of_nat 194) (String (ascii_of_nat 176) EmptyString).

(** [min] and [max] of an iterable of floats: empty, they raise. *)
Definition py_min (l : list R) : result R :=
  match l with
  | [] => Raise ValueError
  | x :: l' => Ok (fold_left (fun m y => if float_lt y m then y else m) l' x)
  end.

Definition py_max (l : list R) : result R :=
  match l with
  | [] => Raise ValueError
  | x :: l' => Ok (fold_left (fun m y => if float_lt m y then y else m) l' x)
  end.

(** The dictionary of [ShootingPlan.to_dict], one field per key. *)
Module PlanDict.

Record t : Type := mk {
  time : string;
  azimuth : R;
  elevation : R;
  phase : R;
  iso : Z;
  f_stop : R;
  shutter : R;
  focal_length : Z;
  exposure_comp : R
}.

End PlanDict.

Definition to_dict (p : ShootingPlan) : PlanDict.t :=
  PlanDict.mk
    (strftime_HMS (timestamp p))
    (py_round (azimuth (position (celestial_data p))) 1)
    (py_round (elevation (position (celestial_data p))) 1)
    (py_round (phase (celestial_data p)) 2)
    (iso (camera_config p))
    (f_stop (camera_config p))
    (shutter (camera_config p))
    (focal_length (camera_config p))
    (py_round (exposure_comp p) 1).

(** The dictionaries of [AstroSession.export_session_data]. *)
Module SessionExport.

Record session : Type := mk_session {
  start_time : string;
  duration_minutes : Z;
  location_lat : R;
  location_lon : R
}.

Record summary : Type := mk_summary {
  total_positions : Z;
  elevation_range : string;
  optimal_shots : Z
}.

Record t : Type := mk {
  session_info : session;
  shooting_sequence : list PlanDict.t;
  timelapse_settings : TimelapseCalculator.settings;
  summary_info : summary
}.

End SessionExport.

(** [now_sequence] is the value of [datetime.now()] read by
    [generate_sequence], [now_export] the one read for the start time of the
    export. *)
Definition export_session_data (self : AstroSession.t)
    (now_sequence now_export : datetime) (duration_minutes : Z)
  : result SessionExport.t :=
  sequence <- AstroSession.generate_sequence self now_sequence
                duration_minutes 5 ;;
  timelapse <- TimelapseCalculator.calculate_interval
                 (IZR duration_minutes / 60) 24 30 ;;
  let session :=
    SessionExport.mk_session (isoformat now_export) duration_minutes
      (AstroSession.lat self) (AstroSession.lon self) in
  let shooting_sequence := map to_dict sequence in
  let total_positions := Z.of_nat (List.length sequence) in
  lowest <- py_min (map (fun p => elevation (position (celestial_data p)))
                        sequence) ;;
  highest <- py_max (map (fun p => elevation (position (celestial_data p)))
                         sequence) ;;
  let elevation_range :=
    (format_1f lowest ++ degree_sign ++ " - " ++ format_1f highest
     ++ degree_sign)%string in
  let optimal_shots :=
    Z.of_nat
      (List.length
         (filter (fun p => float_lt 30 (elevation (position (celestial_data p))))
                 sequence)) in
  Ok (SessionExport.mk session shooting_sequence timelapse
        (SessionExport.mk_summary total_positions elevation_range
           optimal_shots)).

(** * Properties *)

(** ** Comparisons, modulus and angle conversions on floats *)

Section FloatFacts.

Open Scope R_scope.

Lemma float_lt_true (x y : R) : x < y -> float_lt x y = true.
Proof.
  intros H. unfold float_lt. destruct (Rlt_dec x y); [reflexivity | lra].
Qed.

Lemma float_lt_false (x y : R) : y <= x -> float_lt x y = false.
Proof.
  intros H. unfold float_lt. destruct (Rlt_dec x y); [lra | reflexivity].
Qed.

Lemma float_lt_spec (x y : R) : float_lt x y = true <-> x < y.
Proof.
  unfold float_lt. destruct (Rlt_dec x y); split; intros H;
    try reflexivity; try assumption; try discriminate; lra.
Qed.

(** The modulus by a positive number lands in [0, m) and differs from its
    argument by a whole number of times [m]. *)
Lemma float_mod_bounds (x m : R) : 0 < m -> 0 <= float_mod x m < m.
Proof.
  intros Hm. unfold float_mod.
  destruct (Zfloor_bound (x / m)) as [Hlo Hhi].
  assert (Hx : x = m * (x / m)) by (field; lra).
  split.
  - apply (Rmult_le_compat_l m) in Hlo; lra.
  - apply (Rmult_lt_compat_l m) in Hhi; lra.
Qed.

Lemma float_mod_shift (x m : R) :
  exists k : Z, float_mod x m = x - m * IZR k.
Proof. exists (Zfloor (x / m)). reflexivity. Qed.

Lemma degrees_radians (x : R) : degrees (radians x) = x.
Proof.
  unfold degrees, radians. field. apply PI_neq0.
Qed.

Lemma clamp_bounds (lo hi x : R) :
  lo <= hi -> lo <= Rmax lo (Rmin hi x) <= hi.
Proof.
  intros H. unfold Rmax, Rmin.
  destruct (Rle_dec hi x); destruct (Rle_dec lo _); lra.
Qed.

Lemma clamp_id (lo hi x : R) :
  lo <= x <= hi -> Rmax lo (Rmin hi x) = x.
Proof.
  intros H. unfold Rmax, Rmin.
  destruct (Rle_dec hi x); destruct (Rle_dec lo _); lra.
Qed.

End FloatFacts.

(** ** The condition classifier *)

Section Classifier.

Open Scope R_scope.

(** C3. The classifier returns LowHorizon below 15 degrees, Atmospheric
    from 15 (included) to 30 (excluded) and Clear from 30 on; so 14.9 is
    LowHorizon, 15.0 and 29.9 are Atmospheric, 30.0 is Clear, and DeepSky
    is the answer at no elevation. *)
Theorem condition_thresholds (c : CelestialData) :
  let e := elevation (position c) in
  (e < 15 -> condition c = LOW_HORIZON) /\
  (15 <= e < 30 -> condition c = ATMOSPHERIC) /\
  (30 <= e -> condition c = CLEAR) /\
  (e = 14.9 -> condition c = LOW_HORIZON) /\
  (e = 15.0 -> condition c = ATMOSPHERIC) /\
  (e = 29.9 -> condition c = ATMOSPHERIC) /\
  (e = 30.0 -> condition c = CLEAR) /\
  condition c <> DEEP_SKY.
Proof.
  intros e. unfold condition. fold e.
  assert (Hlow : e < 15 ->
            (if float_lt e 15 then LOW_HORIZON
             else if float_lt e 30 then ATMOSPHERIC else CLEAR)
            = LOW_HORIZON).
  { intros H. rewrite float_lt_true by assumption. reflexivity. }
  assert (Hmid : 15 <= e < 30 ->
            (if float_lt e 15 then LOW_HORIZON
             else if float_lt e 30 then ATMOSPHERIC else CLEAR)
            = ATMOSPHERIC).
  { intros [H1 H2]. rewrite float_lt_false by assumption.
    rewrite float_lt_true by assumption. reflexivity. }
  assert (Hhigh : 30 <= e ->
            (if float_lt e 15 then LOW_HORIZON
             else if float_lt e 30 then ATMOSPHERIC else CLEAR)
            = CLEAR).
  { intros H. rewrite !float_lt_false by lra. reflexivity. }
  repeat split.
  - exact Hlow.
  - exact Hmid.
  - exact Hhigh.
  - intros H. apply Hlow. lra.
  - intros H. apply Hmid. lra.
  - intros H. apply Hmid. lra.
  - intros H. apply Hhigh. lra.
  - destruct (float_lt e 15); [discriminate |].
    destruct (float_lt e 30); discriminate.
Qed.

Lemma condition_thresholds_witness :
  condition (mk_CelestialData (mk_Position 180 14.9) 0.5 384400 31.1 (-8.85))
  = LOW_HORIZON.
Proof.
  apply (condition_thresholds
           (mk_CelestialData (mk_Position 180 14.9) 0.5 384400 31.1 (-8.85))).
  simpl. lra.
Defined.

End Classifier.

(** ** Exposure compensation *)

Section Exposure.

Open Scope R_scope.
Import ExposureCalculator.

(** C4. The atmospheric term is the step function 2.0 / 1.0 / 0.5 / 0.0
    with steps at 10, 20 and 30 degrees, the phase term is
    -2.5 * phase + 1.5, the total is their sum, unclamped; at elevation 5
    and phase 0 it is 3.5. *)
Theorem total_compensation_spec (c : CelestialData) :
  let e := elevation (position c) in
  let p := phase c in
  (e < 10 -> atmospheric_compensation e = 2.0) /\
  (10 <= e < 20 -> atmospheric_compensation e = 1.0) /\
  (20 <= e < 30 -> atmospheric_compensation e = 0.5) /\
  (30 <= e -> atmospheric_compensation e = 0.0) /\
  phase_compensation p = -2.5 * p + 1.5 /\
  total_compensation c = atmospheric_compensation e + (-2.5 * p + 1.5) /\
  (e = 5 -> p = 0.0 -> total_compensation c = 3.5).
Proof.
  intros e p.
  assert (H1 : e < 10 -> atmospheric_compensation e = 2.0).
  { intros H. unfold atmospheric_compensation.
    rewrite float_lt_true by assumption. reflexivity. }
  repeat split.
  - exact H1.
  - intros [Ha Hb]. unfold atmospheric_compensation.
    rewrite float_lt_false by assumption.
    rewrite float_lt_true by assumption. reflexivity.
  - intros [Ha Hb]. unfold atmospheric_compensation.
    rewrite !float_lt_false by lra.
    rewrite float_lt_true by assumption. reflexivity.
  - intros H. unfold atmospheric_compensation.
    rewrite !float_lt_false by lra. reflexivity.
  - intros He Hp. unfold total_compensation, phase_compensation.
    fold e p. rewrite H1 by lra. rewrite Hp. lra.
Qed.

Lemma total_compensation_spec_witness :
  total_compensation
    (mk_CelestialData (mk_Position 180 5) 0.0 384400 31.1 (-2.5)) = 3.5.
Proof.
  apply (total_compensation_spec
           (mk_CelestialData (mk_Position 180 5) 0.0 384400 31.1 (-2.5)));
    reflexivity.
Defined.

End Exposure.

(** ** Camera presets and the phase adjustment *)

Section Presets.

Open Scope R_scope.
Import CameraPresets.

Lemma adjust_for_phase_dim (config : CameraConfig) (p : R) :
  0.3 + 0.7 * p < 0.5 ->
  adjust_for_phase config p
  = CameraConfig4 (Z.min 3200 (iso config * 2))
                  (Rmax 2.8 (f_stop config - 1))
                  (shutter config) (focal_length config).
Proof.
  intros H. unfold adjust_for_phase.
  rewrite float_lt_true by assumption. reflexivity.
Qed.

Lemma adjust_for_phase_bright (config : CameraConfig) (p : R) :
  0.5 <= 0.3 + 0.7 * p ->
  adjust_for_phase config p
  = CameraConfig4 (iso config) (f_stop config)
                  (shutter config) (focal_length config).
Proof.
  intros H. unfold adjust_for_phase.
  rewrite float_lt_false by assumption. reflexivity.
Qed.

Lemma preset_iso_f_stop (c : SkyCondition) :
  (iso (get_config c) <= 1600)%Z /\ 2.8 <= f_stop (get_config c).
Proof. destruct c; simpl; split; try lia; lra. Qed.

(** C2, as the specification states it, fails: a bright-phase call does
    not return a config equal to its argument when the argument's focus
    is not the default. *)
Lemma adjust_for_phase_resets_focus :
  let config := mk_CameraConfig 200 8.0 (1 / 125) 300 "manual" in
  0.5 <= 0.3 + 0.7 * 1.0 /\
  adjust_for_phase config 1.0 <> config.
Proof.
  intros config. split; [lra |].
  rewrite adjust_for_phase_bright by lra.
  unfold config, CameraConfig4. intros H. inversion H.
Qed.

(** C2, amended. With brightness = 0.3 + 0.7 * phase: below 0.5 the
    result has iso = min(3200, 2 * iso), f_stop = max(2.8, f_stop - 1) and
    the shutter and focal length of the argument; otherwise its iso,
    f_stop, shutter and focal length are those of the argument, so it is
    equal to the argument when the argument has the default focus, as
    every preset has. For every preset and phase the adjusted iso is at
    most 3200 and the adjusted f_stop at least 2.8. *)
Theorem adjust_for_phase_spec (config : CameraConfig) (p : R) :
  let r := adjust_for_phase config p in
  (0.3 + 0.7 * p < 0.5 ->
     iso r = Z.min 3200 (2 * iso config) /\
     f_stop r = Rmax 2.8 (f_stop config - 1) /\
     shutter r = shutter config /\
     focal_length r = focal_length config) /\
  (0.5 <= 0.3 + 0.7 * p ->
     iso r = iso config /\
     f_stop r = f_stop config /\
     shutter r = shutter config /\
     focal_length r = focal_length config /\
     (focus config = "infinity"%string -> r = config)) /\
  (forall c : SkyCondition,
     (0.5 <= 0.3 + 0.7 * p ->
        adjust_for_phase (get_config c) p = get_config c) /\
     (iso (adjust_for_phase (get_config c) p) <= 3200)%Z /\
     2.8 <= f_stop (adjust_for_phase (get_config c) p)).
Proof.
  intros r. unfold r. split; [| split].
  - intros H. rewrite adjust_for_phase_dim by assumption.
    unfold CameraConfig4. cbn [iso f_stop shutter focal_length].
    rewrite (Z.mul_comm 2). repeat split.
  - intros H. rewrite adjust_for_phase_bright by assumption. simpl.
    repeat split. intros Hf. destruct config as [i f s fl fo].
    simpl in *. subst fo. reflexivity.
  - intros c. destruct (preset_iso_f_stop c) as [Hi Hf].
    destruct (Rlt_dec (0.3 + 0.7 * p) 0.5) as [Hd | Hb].
    + rewrite adjust_for_phase_dim by assumption. simpl.
      repeat split.
      * intros Hb. lra.
      * apply Z.le_min_l.
      * apply Rmax_l.
    + apply Rnot_lt_le in Hb.
      rewrite adjust_for_phase_bright by assumption. simpl.
      repeat split.
      * intros _. destruct c; reflexivity.
      * lia.
      * exact Hf.
Qed.

Lemma adjust_for_phase_spec_witness :
  iso (adjust_for_phase (get_config DEEP_SKY) 0.0) = Z.min 3200 (2 * 1600) /\
  adjust_for_phase (get_config CLEAR) 1.0 = get_config CLEAR.
Proof.
  split.
  - apply (adjust_for_phase_spec (get_config DEEP_SKY) 0.0). lra.
  - apply (proj2 (proj2 (adjust_for_phase_spec (get_config CLEAR) 1.0))).
    lra.
Defined.

End Presets.

(** ** The timelapse calculator *)

Section Timelapse.

Open Scope R_scope.
Import TimelapseCalculator.

Lemma true_div_zero (x : R) : true_div x 0 = Raise ZeroDivisionError.
Proof.
  unfold true_div. destruct (Req_dec_T 0 0) as [_ | H];
    [reflexivity | contradiction H; reflexivity].
Qed.

Lemma true_div_nonzero (x y : R) : y <> 0 -> true_div x y = Ok (x / y).
Proof.
  intros H. unfold true_div. destruct (Req_dec_T y 0) as [E | _];
    [contradiction | reflexivity].
Qed.

(** C5, as the specification states it, fails: with [target_fps = 0] the
    call dies on the interpreter's [ZeroDivisionError], not on a
    dedicated invalid-parameters condition. *)
Lemma calculate_interval_fps_zero :
  calculate_interval 2.0 0 30 = Raise ZeroDivisionError /\
  calculate_interval 2.0 0 30 <> Raise InvalidTimelapseParameters.
Proof.
  assert (H : calculate_interval 2.0 0 30 = Raise ZeroDivisionError).
  { unfold calculate_interval. simpl (0 * 30)%Z.
    rewrite true_div_zero. reflexivity. }
  split; [exact H |]. rewrite H. discriminate.
Qed.

(** C5, amended. When target_fps * final_duration_seconds is zero,
    [calculate_interval] raises ZeroDivisionError at the division, so no
    settings (and no infinite or NaN interval) are returned; with a
    nonzero product it returns settings. *)
Theorem calculate_interval_zero_frames
    (duration_hours : R) (target_fps final_duration_seconds : Z) :
  ((target_fps * final_duration_seconds = 0)%Z ->
     calculate_interval duration_hours target_fps final_duration_seconds
     = Raise ZeroDivisionError) /\
  ((target_fps * final_duration_seconds <> 0)%Z ->
     exists s,
       calculate_interval duration_hours target_fps final_duration_seconds
       = Ok s /\
       total_frames s = (target_fps * final_duration_seconds)%Z).
Proof.
  split.
  - intros H. unfold calculate_interval. rewrite H.
    rewrite true_div_zero. reflexivity.
  - intros H. unfold calculate_interval.
    rewrite true_div_nonzero by (apply not_0_IZR; exact H).
    simpl. eexists. split; reflexivity.
Qed.

Lemma calculate_interval_zero_frames_witness :
  calculate_interval 2.0 24 0 = Raise ZeroDivisionError.
Proof.
  apply (calculate_interval_zero_frames 2.0 24 0). reflexivity.
Defined.

End Timelapse.

(** ** The ephemeris: position and phase *)

Section Ephemeris.

Open Scope R_scope.
Import AstronomyCalculator.

(** The elevation of [lunar_position] before and after the clamp. *)
Lemma lunar_position_elevation (jd lat lon : R) :
  snd (lunar_position jd lat lon)
  = 5.128 * sin (radians (93.272 + 13.229350 * (jd - 2451545.0))) + 30.
Proof.
  unfold lunar_position. cbn [snd].
  rewrite degrees_radians.
  apply clamp_id.
  pose proof (SIN_bound (radians (93.272 + 13.229350 * (jd - 2451545.0))))
    as [Hlo Hhi].
  lra.
Qed.

(** C6. Whatever the Julian day and the observer's coordinates, the
    azimuth of [lunar_position] is in [0, 360) and its elevation in
    [-90, 90]. *)
Theorem lunar_position_range (jd lat lon : R) :
  0 <= fst (lunar_position jd lat lon) < 360 /\
  -90 <= snd (lunar_position jd lat lon) <= 90.
Proof.
  split.
  - unfold lunar_position. cbn [fst]. apply float_mod_bounds. lra.
  - unfold lunar_position. cbn [snd]. apply clamp_bounds. lra.
Qed.

(** C7. [lunar_phase jd] is (1 + cos (L - S)) / 2, where L and S are the
    mean lunar and solar longitudes 218.316 + 13.176396 d and
    280.466 + 0.985647 d (d = jd - 2451545.0), each reduced modulo 360
    into [0, 360) and converted to radians; the value is in [0, 1]. *)
Theorem lunar_phase_spec (jd : R) :
  let d := jd - 2451545.0 in
  exists kL kS : Z,
    let l := 218.316 + 13.176396 * d - 360 * IZR kL in
    let s := 280.466 + 0.985647 * d - 360 * IZR kS in
    0 <= l < 360 /\
    0 <= s < 360 /\
    lunar_phase jd = (1 + cos (l * PI / 180 - s * PI / 180)) / 2 /\
    0 <= lunar_phase jd <= 1.
Proof.
  intros d.
  exists (Zfloor ((218.316 + 13.176396 * d) / 360)),
         (Zfloor ((280.466 + 0.985647 * d) / 360)).
  cbv zeta.
  pose proof (float_mod_bounds (218.316 + 13.176396 * d) 360) as HL.
  pose proof (float_mod_bounds (280.466 + 0.985647 * d) 360) as HS.
  unfold float_mod in HL, HS.
  split; [apply HL; lra |]. split; [apply HS; lra |].
  assert (E : lunar_phase jd
              = (1 + cos ((218.316 + 13.176396 * d
                           - 360 * IZR (Zfloor ((218.316 + 13.176396 * d)
                                                / 360))) * PI / 180
                          - (280.466 + 0.985647 * d
                             - 360 * IZR (Zfloor ((280.466 + 0.985647 * d)
                                                  / 360))) * PI / 180)) / 2)
    by reflexivity.
  split; [exact E |].
  rewrite E.
  match goal with |- context [cos ?a] => pose proof (COS_bound a) end.
  lra.
Qed.

End Ephemeris.

(** ** Lunar data of a session *)

Section LunarData.

Open Scope R_scope.
Import AstroSession.

Lemma get_lunar_data_fields (self : AstroSession.t) (ts : datetime) :
  let jd := AstronomyCalculator.julian_day ts in
  let ph := AstronomyCalculator.lunar_phase jd in
  get_lunar_data self ts
  = mk_CelestialData
      (mk_Position
         (fst (AstronomyCalculator.lunar_position jd (lat self) (lon self)))
         (snd (AstronomyCalculator.lunar_position jd (lat self) (lon self))))
      ph 384400 31.1 (-12.7 * ph - 2.5).
Proof.
  intros jd ph. unfold get_lunar_data. fold jd.
  destruct (AstronomyCalculator.lunar_position jd (lat self) (lon self))
    as [az el].
  reflexivity.
Qed.

(** C9. The elevation of [lunar_position] stays within 5.128 degrees of
    30, so the clamp never acts; hence the data of [get_lunar_data] are
    always visible and their condition is Atmospheric or Clear, never
    LowHorizon nor DeepSky. *)
Theorem pipeline_elevation_band
    (self : AstroSession.t) (ts : datetime) (jd latitude longitude : R) :
  30 - 5.128
    <= snd (AstronomyCalculator.lunar_position jd latitude longitude)
    <= 30 + 5.128 /\
  is_visible (position (get_lunar_data self ts)) = true /\
  (condition (get_lunar_data self ts) = ATMOSPHERIC \/
   condition (get_lunar_data self ts) = CLEAR) /\
  condition (get_lunar_data self ts) <> LOW_HORIZON /\
  condition (get_lunar_data self ts) <> DEEP_SKY.
Proof.
  assert (Hband : forall j la lo,
            30 - 5.128 <= snd (AstronomyCalculator.lunar_position j la lo)
            <= 30 + 5.128).
  { intros j la lo. rewrite lunar_position_elevation.
    match goal with |- context [sin ?a] => pose proof (SIN_bound a) end.
    lra. }
  split; [apply Hband |].
  pose proof (get_lunar_data_fields self ts) as E. cbv zeta in E.
  rewrite E. clear E.
  specialize (Hband (AstronomyCalculator.julian_day ts) (lat self) (lon self)).
  set (el := snd _) in *.
  unfold is_visible, condition. cbn [position elevation].
  rewrite (float_lt_true 0 el) by lra.
  rewrite (float_lt_false el 15) by lra.
  split; [reflexivity |].
  destruct (float_lt el 30); repeat split;
    try (left; reflexivity); try (right; reflexivity); discriminate.
Qed.

(** C10. The data of [get_lunar_data] carry the constants
    distance_km = 384400 and angular_size_arcmin = 31.1, and their
    magnitude is -12.7 * phase - 2.5 for the phase they carry. *)
Theorem get_lunar_data_constants (self : AstroSession.t) (ts : datetime) :
  let c := get_lunar_data self ts in
  distance_km c = 384400 /\
  angular_size_arcmin c = 31.1 /\
  magnitude c = -12.7 * phase c - 2.5 /\
  phase c = AstronomyCalculator.lunar_phase
              (AstronomyCalculator.julian_day ts).
Proof.
  intros c. unfold c.
  pose proof (get_lunar_data_fields self ts) as E. cbv zeta in E.
  rewrite E. cbn [distance_km angular_size_arcmin magnitude phase].
  repeat split.
Qed.

End LunarData.

(** ** The proleptic Gregorian calendar of the [datetime] module *)

Section Calendar.

Ltac eval_month k :=
  let v1 := eval vm_compute in (table DAYS_IN_MONTH k) in
  let v2 := eval vm_compute in (table DAYS_BEFORE_MONTH k) in
  let v3 := eval vm_compute in (k =? 2) in
  let v4 := eval vm_compute in (2 <? k) in
  change (table DAYS_IN_MONTH k) with v1;
  change (table DAYS_BEFORE_MONTH k) with v2;
  change (k =? 2) with v3;
  change (2 <? k) with v4;
  cbn [andb].

Ltac month_cases m :=
  let C := fresh "C" in
  assert (C : m = 1 \/ m = 2 \/ m = 3 \/ m = 4 \/ m = 5 \/ m = 6 \/
              m = 7 \/ m = 8 \/ m = 9 \/ m = 10 \/ m = 11 \/ m = 12)
    by lia;
  repeat (destruct C as [C | C]); subst m.

Lemma in_upto (n : nat) (z : Z) : 0 <= z < Z.of_nat n -> In z (upto n).
Proof.
  intros H. unfold upto. apply in_map_iff. exists (Z.to_nat z). split.
  - lia.
  - apply in_seq. lia.
Qed.

(** *** Years *)

Lemma days_before_year_succ (y : Z) :
  days_before_year (y + 1)
  = days_before_year y + 365 + (if is_leap y then 1 else 0).
Proof.
  unfold days_before_year, is_leap.
  destruct (Z.eqb_spec (y mod 4) 0), (Z.eqb_spec (y mod 100) 0),
           (Z.eqb_spec (y mod 400) 0);
    cbn [andb orb negb]; Z.div_mod_to_equations; lia.
Qed.

Lemma days_before_year_le (y y' : Z) :
  y <= y' -> days_before_year y <= days_before_year y'.
Proof.
  intros H. unfold days_before_year. Z.div_mod_to_equations. lia.
Qed.

Lemma days_before_year_decomp (q a b c : Z) :
  0 <= a <= 3 -> 0 <= b <= 24 -> 0 <= c <= 3 ->
  days_before_year (400 * q + 100 * a + 4 * b + c + 1)
  = 146097 * q + 36524 * a + 1461 * b + 365 * c.
Proof.
  intros Ha Hb Hc. unfold days_before_year.
  replace (400 * q + 100 * a + 4 * b + c + 1 - 1)
    with (400 * q + 100 * a + 4 * b + c) by lia.
  assert (E4 : (400 * q + 100 * a + 4 * b + c) / 4 = 100 * q + 25 * a + b)
    by (symmetry; apply (Z.div_unique _ 4 _ c); lia).
  assert (E100 : (400 * q + 100 * a + 4 * b + c) / 100 = 4 * q + a)
    by (symmetry; apply (Z.div_unique _ 100 _ (4 * b + c)); lia).
  assert (E400 : (400 * q + 100 * a + 4 * b + c) / 400 = q)
    by (symmetry; apply (Z.div_unique _ 400 _ (100 * a + 4 * b + c)); lia).
  rewrite E4, E100, E400. lia.
Qed.

Lemma is_leap_decomp (q a b c : Z) :
  0 <= a <= 3 -> 0 <= b <= 24 -> 0 <= c <= 3 ->
  is_leap (400 * q + 100 * a + 4 * b + c + 1)
  = (c =? 3) && (negb (b =? 24) || (a =? 3)).
Proof.
  intros Ha Hb Hc. unfold is_leap.
  set (y := 400 * q + 100 * a + 4 * b + c + 1).
  assert (M4 : y mod 4 = (c + 1) mod 4).
  { unfold y. replace (400 * q + 100 * a + 4 * b + c + 1)
      with (c + 1 + (100 * q + 25 * a + b) * 4) by lia.
    apply Z.mod_add. lia. }
  assert (M100 : y mod 100 = (4 * b + c + 1) mod 100).
  { unfold y. replace (400 * q + 100 * a + 4 * b + c + 1)
      with (4 * b + c + 1 + (4 * q + a) * 100) by lia.
    apply Z.mod_add. lia. }
  assert (M400 : y mod 400 = (100 * a + 4 * b + c + 1) mod 400).
  { unfold y. replace (400 * q + 100 * a + 4 * b + c + 1)
      with (100 * a + 4 * b + c + 1 + q * 400) by lia.
    apply Z.mod_add. lia. }
  rewrite M4, M100, M400.
  destruct (Z.eqb_spec c 3), (Z.eqb_spec b 24), (Z.eqb_spec a 3);
    cbn [andb orb negb];
    repeat match goal with
    | |- context [?x mod ?k =? 0] => destruct (Z.eqb_spec (x mod k) 0)
    end; cbn [andb orb negb]; try reflexivity;
    exfalso; Z.div_mod_to_equations; lia.
Qed.

(** *** Months *)

Lemma days_in_month_pos (y m : Z) :
  1 <= m <= 12 -> 28 <= days_in_month y m <= 31.
Proof.
  intros H. unfold days_in_month. month_cases m;
    match goal with |- context [table _ ?k] => eval_month k end;
    destruct (is_leap y); lia.
Qed.

Lemma day_of_year_bounds (y m d : Z) :
  1 <= m <= 12 -> 1 <= d <= days_in_month y m ->
  1 <= days_before_month y m + d <= 365 + (if is_leap y then 1 else 0).
Proof.
  intros Hm. unfold days_in_month, days_before_month. month_cases m;
    match goal with |- context [table _ ?k] => eval_month k end;
    destruct (is_leap y); lia.
Qed.

Lemma days_before_month_next (y m m' : Z) :
  1 <= m -> m < m' -> m' <= 12 ->
  days_before_month y m + days_in_month y m <= days_before_month y m'.
Proof.
  intros H1 H2 H3. unfold days_in_month, days_before_month.
  assert (Hm : 1 <= m <= 12) by lia.
  assert (Hm' : 1 <= m' <= 12) by lia.
  month_cases m'; month_cases m; try lia;
    repeat match goal with |- context [table _ ?k] => eval_month k end;
    destruct (is_leap y); lia.
Qed.

(** *** Ordinals *)

(** The ordinal grows with the date. *)
Lemma ymd2ord_lt (y m d y' m' d' : Z) :
  1 <= m <= 12 -> 1 <= d <= days_in_month y m ->
  1 <= m' <= 12 -> 1 <= d' <= days_in_month y' m' ->
  y < y' \/ (y = y' /\ (m < m' \/ (m = m' /\ d < d'))) ->
  ymd2ord y m d < ymd2ord y' m' d'.
Proof.
  intros Hm Hd Hm' Hd' Hlex. unfold ymd2ord.
  pose proof (day_of_year_bounds y m d Hm Hd) as B.
  pose proof (day_of_year_bounds y' m' d' Hm' Hd') as B'.
  destruct Hlex as [Hy | [Hy [Hlt | [He Hlt]]]].
  - pose proof (days_before_year_succ y) as S.
    pose proof (days_before_year_le (y + 1) y' ltac:(lia)) as L.
    lia.
  - subst y'.
    pose proof (days_before_month_next y m m' ltac:(lia) Hlt ltac:(lia)).
    lia.
  - subst y' m'. lia.
Qed.

Lemma month_day_checked :
  forallb (month_day_ok false) (upto 365)
  && forallb (month_day_ok true) (upto 365) = true.
Proof. vm_compute. reflexivity. Qed.

Lemma ord2ymd_unfold (n : Z) :
  ord2ymd n =
  let n0 := n - 1 in
  let n400 := n0 / 146097 in
  let r400 := n0 mod 146097 in
  let n100 := r400 / 36524 in
  let r100 := r400 mod 36524 in
  let n4 := r100 / 1461 in
  let r4 := r100 mod 1461 in
  let n1 := r4 / 365 in
  let r := r4 mod 365 in
  let y := n400 * 400 + 1 + n100 * 100 + n4 * 4 + n1 in
  if (n1 =? 4) || (n100 =? 4) then (y - 1, 12, 31)
  else
    let '(m, d) :=
      month_day ((n1 =? 3) && (negb (n4 =? 24) || (n100 =? 3))) r in
    (y, m, d).
Proof.
  unfold ord2ymd, month_day, DI400Y, DI100Y, DI4Y. cbv zeta.
  destruct (_ || _); [reflexivity |].
  destruct (_ <? _); reflexivity.
Qed.

(** [ord2ymd] returns a date of the calendar, the one whose ordinal is its
    argument. *)
Lemma ord2ymd_correct (n : Z) :
  let '(y, m, d) := ord2ymd n in
  1 <= m <= 12 /\ 1 <= d <= days_in_month y m /\ ymd2ord y m d = n.
Proof.
  rewrite ord2ymd_unfold. cbv zeta.
  pose proof (Z.div_mod (n - 1) 146097 ltac:(lia)) as E400.
  pose proof (Z.mod_pos_bound (n - 1) 146097 ltac:(lia)) as B400.
  set (q := (n - 1) / 146097) in *. set (r400 := (n - 1) mod 146097) in *.
  pose proof (Z.div_mod r400 36524 ltac:(lia)) as E100.
  pose proof (Z.mod_pos_bound r400 36524 ltac:(lia)) as B100.
  set (a := r400 / 36524) in *. set (r100 := r400 mod 36524) in *.
  pose proof (Z.div_mod r100 1461 ltac:(lia)) as E4.
  pose proof (Z.mod_pos_bound r100 1461 ltac:(lia)) as B4.
  set (b := r100 / 1461) in *. set (r4 := r100 mod 1461) in *.
  pose proof (Z.div_mod r4 365 ltac:(lia)) as E1.
  pose proof (Z.mod_pos_bound r4 365 ltac:(lia)) as B1.
  set (c := r4 / 365) in *. set (r := r4 mod 365) in *.
  clearbody q r400 a r100 b r4 c r.
  assert (Ha : 0 <= a <= 4) by lia.
  assert (Hb : 0 <= b <= 24) by lia.
  assert (Hc : 0 <= c <= 4) by lia.
  destruct (Z.eqb_spec c 4) as [C4 | C4]; cbn [orb].
  - (* 31 December of a leap year, reached by the fourth year of a cycle *)
    assert (Hb' : b <= 23) by lia.
    assert (Ha' : a <= 3) by lia.
    replace (q * 400 + 1 + a * 100 + b * 4 + c - 1)
      with (400 * q + 100 * a + 4 * b + 3 + 1) by lia.
    pose proof (days_before_year_decomp q a b 3) as Hdby.
    pose proof (is_leap_decomp q a b 3) as Hleap.
    set (y := 400 * q + 100 * a + 4 * b + 3 + 1) in *.
    assert (L : is_leap y = true).
    { rewrite Hleap by lia. destruct (Z.eqb_spec b 24); [lia | reflexivity]. }
    unfold ymd2ord, days_in_month, days_before_month.
    rewrite L, Hdby by lia. eval_month 12. lia.
  - destruct (Z.eqb_spec a 4) as [A4 | A4].
    + (* 31 December of a year that closes a 400-year cycle *)
      cbn [orb].
      replace (q * 400 + 1 + a * 100 + b * 4 + c - 1)
        with (400 * q + 100 * 3 + 4 * 24 + 3 + 1) by lia.
      pose proof (days_before_year_decomp q 3 24 3) as Hdby.
      pose proof (is_leap_decomp q 3 24 3) as Hleap.
      set (y := 400 * q + 100 * 3 + 4 * 24 + 3 + 1) in *.
      assert (L : is_leap y = true) by (rewrite Hleap by lia; reflexivity).
      unfold ymd2ord, days_in_month, days_before_month.
      rewrite L, Hdby by lia. eval_month 12. lia.
    + replace (q * 400 + 1 + a * 100 + b * 4 + c)
        with (400 * q + 100 * a + 4 * b + c + 1) by lia.
      pose proof (days_before_year_decomp q a b c) as Hdby.
      pose proof (is_leap_decomp q a b c) as Hleap.
      set (y := 400 * q + 100 * a + 4 * b + c + 1) in *.
      rewrite <- Hleap by lia.
      pose proof month_day_checked as Hchk.
      apply andb_true_iff in Hchk. destruct Hchk as [Hf Ht].
      rewrite forallb_forall in Hf, Ht.
      assert (Hok : month_day_ok (is_leap y) r = true).
      { destruct (is_leap y); [apply Ht | apply Hf]; apply in_upto; lia. }
      unfold month_day_ok in Hok.
      destruct (month_day (is_leap y) r) as [m d].
      rewrite !andb_true_iff in Hok.
      destruct Hok as [[[[H1 H2] H3] H4] H5].
      unfold ymd2ord, days_in_month, days_before_month.
      rewrite Hdby by lia. lia.
Qed.

End Calendar.

(** ** The Julian day *)

Section JulianDay.

Import AstronomyCalculator.

(** The closed formula of [julian_day], with its January/February
    adjustment, counts the days from the epoch of the Julian period. *)
Lemma jdn_formula_ordinal (y m d : Z) :
  1 <= m <= 12 ->
  let a := (14 - m) / 12 in
  let y' := y + 4800 - a in
  let m' := m + 12 * a - 3 in
  d + (153 * m' + 2) / 5 + 365 * y' + y' / 4 - y' / 100 + y' / 400 - 32045
  = standard_jdn y m d.
Proof.
  intros Hm a y' m'. subst a y' m'.
  unfold standard_jdn.
  replace (ymd2ord (-4713) 11 24) with (-1721425) by reflexivity.
  unfold ymd2ord, days_before_month, days_before_year, is_leap.
  assert (C : m = 1 \/ m = 2 \/ m = 3 \/ m = 4 \/ m = 5 \/ m = 6 \/
              m = 7 \/ m = 8 \/ m = 9 \/ m = 10 \/ m = 11 \/ m = 12)
    by lia.
  repeat (destruct C as [C | C]); subst m;
    match goal with
    | |- context [(14 - ?k) / 12] =>
        let v := eval vm_compute in ((14 - k) / 12) in
        change ((14 - k) / 12) with v
    end;
    match goal with
    | |- context [(153 * ?k + 2) / 5] =>
        let v := eval vm_compute in ((153 * k + 2) / 5) in
        change ((153 * k + 2) / 5) with v
    end;
    match goal with
    | |- context [table ?t ?k] =>
        let v := eval vm_compute in (table t k) in
        change (table t k) with v
    end;
    match goal with
    | |- context [2 <? ?k] =>
        let v := eval vm_compute in (2 <? k) in
        change (2 <? k) with v
    end;
    destruct (Z.eqb_spec (y mod 4) 0), (Z.eqb_spec (y mod 100) 0),
             (Z.eqb_spec (y mod 400) 0);
    cbn [andb orb negb]; Z.div_mod_to_equations; lia.
Qed.

Lemma january_february_adjustment (m : Z) :
  1 <= m <= 12 -> (14 - m) / 12 = if m <=? 2 then 1 else 0.
Proof.
  intros H. destruct (Z.leb_spec m 2); Z.div_mod_to_equations; lia.
Qed.

Open Scope R_scope.

(** C8. For a valid timestamp, [julian_day] is the Gregorian Julian Day
    Number of its date, obtained by the closed formula in which January
    and February count as months 10 and 11 of the year before, plus the
    fraction (hour - 12) / 24 + minute / 1440 + second / 86400 of a day
    counted from noon; at 12:00:00 it is the Julian Day Number itself. *)
Theorem julian_day_spec (ts : datetime) :
  valid_datetime ts ->
  let jdn := standard_jdn (year ts) (month ts) (day ts) in
  let a := if (month ts <=? 2)%Z then 1%Z else 0%Z in
  let y := (year ts + 4800 - a)%Z in
  let m := (month ts + 12 * a - 3)%Z in
  (jdn = day ts + (153 * m + 2) / 5 + 365 * y + y / 4 - y / 100 + y / 400
         - 32045)%Z /\
  julian_day ts
  = IZR jdn + ((IZR (hour ts) - 12) / 24 + IZR (minute ts) / 1440
               + IZR (second ts) / 86400) /\
  (hour ts = 12%Z -> minute ts = 0%Z -> second ts = 0%Z ->
   julian_day ts = IZR jdn).
Proof.
  intros [Hy [Hm _]] jdn a y m.
  pose proof (jdn_formula_ordinal (year ts) (month ts) (day ts) Hm) as E.
  cbv zeta in E. rewrite (january_february_adjustment _ Hm) in E.
  fold a y m jdn in E.
  assert (J : julian_day_number ts = jdn).
  { unfold julian_day_number.
    rewrite (january_february_adjustment _ Hm). fold a y m. exact E. }
  split; [symmetry; exact E |].
  unfold julian_day, day_fraction. rewrite J.
  split; [reflexivity |].
  intros Hh Hmi Hs. rewrite Hh, Hmi, Hs. lra.
Qed.

Lemma julian_day_spec_witness :
  julian_day (mk_datetime 2000 1 1 12 0 0 0) = 2451545.
Proof.
  assert (V : valid_datetime (mk_datetime 2000 1 1 12 0 0 0)).
  { repeat split; vm_compute; easy. }
  destruct (julian_day_spec (mk_datetime 2000 1 1 12 0 0 0) V)
    as (_ & _ & H).
  rewrite H by reflexivity. reflexivity.
Defined.

End JulianDay.

(** ** Adding minutes to a [datetime] *)

Section DatetimeArithmetic.

Lemma toordinal_pos (t : datetime) : valid_datetime t -> 1 <= toordinal t.
Proof.
  intros [Hy [Hm [Hd _]]]. unfold toordinal, ymd2ord.
  pose proof (day_of_year_bounds _ _ _ Hm Hd) as B.
  pose proof (days_before_year_le 1 (year t) ltac:(lia)) as L.
  change (days_before_year 1) with 0 in L. lia.
Qed.

Lemma epoch_seconds_lower (t : datetime) :
  valid_datetime t -> 86400 <= epoch_seconds t.
Proof.
  intros V. pose proof (toordinal_pos t V) as P.
  destruct V as [_ (_ & _ & Hh & Hmi & Hs & _)].
  unfold epoch_seconds. lia.
Qed.

(** The day and the second of the day that [datetime_add] computes for
    [timedelta(minutes=i)] are those of the instant [i] minutes later. *)
Lemma add_day_second (t : datetime) (i : Z) :
  let s := hour t * 3600 + minute t * 60 + second t + (i * 60) mod 86400 in
  toordinal t + (i * 60) / 86400 + s / 86400
  = (epoch_seconds t + 60 * i) / 86400 /\
  s mod 86400 = (epoch_seconds t + 60 * i) mod 86400.
Proof.
  intros s.
  assert (E : epoch_seconds t + 60 * i
              = s + (toordinal t + (i * 60) / 86400) * 86400).
  { unfold s, epoch_seconds.
    pose proof (Z.div_mod (i * 60) 86400 ltac:(lia)). lia. }
  rewrite E. split.
  - rewrite Z.div_add by lia. lia.
  - rewrite Z.mod_add by lia. reflexivity.
Qed.

Lemma add_minutes_unfold (t : datetime) (i : Z) :
  valid_datetime t -> 0 <= i -> (i * 60) / 86400 <= 999999999 ->
  add_minutes t i
  = if (0 <? (epoch_seconds t + 60 * i) / 86400)
       && ((epoch_seconds t + 60 * i) / 86400 <=? MAXORDINAL)
    then Ok (shift_minutes t i)
    else Raise OverflowError.
Proof.
  intros V Hi Hd.
  unfold add_minutes, timedelta_minutes.
  assert (Hq : 0 <= (i * 60) / 86400) by (apply Z.div_pos; lia).
  rewrite Z.abs_eq by assumption.
  destruct (Z.ltb_spec 999999999 ((i * 60) / 86400)) as [Hbig | _];
    [lia |].
  cbn [bind]. unfold datetime_add.
  cbn [days seconds microseconds].
  destruct V as [_ (_ & _ & _ & _ & _ & Hus)].
  rewrite Z.add_0_r.
  rewrite (Z.div_small (microsecond t)) by assumption.
  rewrite (Z.mod_small (microsecond t)) by assumption.
  rewrite Z.add_0_r.
  destruct (add_day_second t i) as [Ed Es]. cbv zeta in Ed, Es.
  rewrite Ed, Es.
  unfold shift_minutes.
  destruct (ord2ymd ((epoch_seconds t + 60 * i) / 86400)) as [[y m] dd].
  reflexivity.
Qed.

Lemma add_minutes_ok (t : datetime) (i : Z) :
  valid_datetime t -> 0 <= i -> representable t i ->
  add_minutes t i = Ok (shift_minutes t i).
Proof.
  intros V Hi R. unfold representable, MAXORDINAL in R.
  pose proof (epoch_seconds_lower t V) as L.
  rewrite add_minutes_unfold; try assumption.
  - assert (H1 : 0 < (epoch_seconds t + 60 * i) / 86400)
      by (apply Z.div_str_pos; lia).
    assert (H2 : (epoch_seconds t + 60 * i) / 86400 <= MAXORDINAL).
    { unfold MAXORDINAL.
      assert ((epoch_seconds t + 60 * i) / 86400 < 3652059 + 1); [| lia].
      apply Z.div_lt_upper_bound; lia. }
    apply Z.ltb_lt in H1. apply Z.leb_le in H2. rewrite H1, H2. reflexivity.
  - assert ((i * 60) / 86400 < 3652059 + 1); [| lia].
    apply Z.div_lt_upper_bound; lia.
Qed.

Lemma add_minutes_overflow (t : datetime) (i : Z) :
  valid_datetime t -> 0 <= i -> ~ representable t i ->
  add_minutes t i = Raise OverflowError.
Proof.
  intros V Hi R. unfold representable, MAXORDINAL in R.
  destruct (Z.le_gt_cases ((i * 60) / 86400) 999999999) as [Hd | Hd].
  - rewrite add_minutes_unfold; try assumption.
    assert (H2 : MAXORDINAL < (epoch_seconds t + 60 * i) / 86400).
    { unfold MAXORDINAL.
      assert (3652059 + 1 <= (epoch_seconds t + 60 * i) / 86400); [| lia].
      apply Z.div_le_lower_bound; lia. }
    destruct (Z.leb_spec ((epoch_seconds t + 60 * i) / 86400) MAXORDINAL);
      [lia |].
    rewrite andb_false_r. reflexivity.
  - unfold add_minutes, timedelta_minutes.
    rewrite Z.abs_eq by lia.
    apply Z.ltb_lt in Hd. rewrite Hd. reflexivity.
Qed.

Lemma shift_minutes_fields (t : datetime) (i : Z) :
  0 <= microsecond t < 1000000 ->
  well_formed (shift_minutes t i) /\
  epoch_seconds (shift_minutes t i) = epoch_seconds t + 60 * i /\
  microsecond (shift_minutes t i) = microsecond t.
Proof.
  intros Hus. unfold shift_minutes.
  set (total := epoch_seconds t + 60 * i).
  pose proof (ord2ymd_correct (total / 86400)) as C.
  destruct (ord2ymd (total / 86400)) as [[y m] dd].
  destruct C as (Hm & Hd & Ho).
  pose proof (Z.mod_pos_bound total 86400 ltac:(lia)) as Bs.
  set (s := total mod 86400) in *.
  unfold well_formed, epoch_seconds, toordinal.
  cbn [year month day hour minute second microsecond].
  rewrite Ho.
  pose proof (Z.div_mod total 86400 ltac:(lia)) as Et. fold s in Et.
  clearbody s total.
  repeat split; try assumption; try lia;
    Z.div_mod_to_equations; lia.
Qed.

End DatetimeArithmetic.

(** ** The order of [datetime] objects *)

Section DatetimeOrder.

Lemma datetime_cmp_antisym (a b : datetime) :
  datetime_cmp b a = CompOpp (datetime_cmp a b).
Proof.
  unfold datetime_cmp.
  rewrite (Z.compare_antisym (year a) (year b)),
          (Z.compare_antisym (month a) (month b)),
          (Z.compare_antisym (day a) (day b)),
          (Z.compare_antisym (hour a) (hour b)),
          (Z.compare_antisym (minute a) (minute b)),
          (Z.compare_antisym (second a) (second b)),
          (Z.compare_antisym (microsecond a) (microsecond b)).
  destruct (year a ?= year b); cbn [CompOpp]; try reflexivity.
  destruct (month a ?= month b); cbn [CompOpp]; try reflexivity.
  destruct (day a ?= day b); cbn [CompOpp]; try reflexivity.
  destruct (hour a ?= hour b); cbn [CompOpp]; try reflexivity.
  destruct (minute a ?= minute b); cbn [CompOpp]; try reflexivity.
  destruct (second a ?= second b); cbn [CompOpp]; reflexivity.
Qed.

Lemma datetime_cmp_eq (a b : datetime) :
  datetime_cmp a b = Eq -> a = b.
Proof.
  destruct a as [y m d h mi s us], b as [y' m' d' h' mi' s' us'].
  unfold datetime_cmp. cbn [year month day hour minute second microsecond].
  destruct (Z.compare_spec y y'); try discriminate.
  destruct (Z.compare_spec m m'); try discriminate.
  destruct (Z.compare_spec d d'); try discriminate.
  destruct (Z.compare_spec h h'); try discriminate.
  destruct (Z.compare_spec mi mi'); try discriminate.
  destruct (Z.compare_spec s s'); try discriminate.
  destruct (Z.compare_spec us us'); try discriminate.
  intros _. subst. reflexivity.
Qed.

(** An earlier tuple of fields is an earlier instant. *)
Lemma datetime_cmp_lt (a b : datetime) :
  well_formed a -> well_formed b ->
  datetime_cmp a b = Lt -> epoch_microseconds a < epoch_microseconds b.
Proof.
  destruct a as [y m d h mi s us], b as [y' m' d' h' mi' s' us'].
  unfold well_formed, datetime_cmp, epoch_microseconds, epoch_seconds,
    toordinal.
  cbn [year month day hour minute second microsecond].
  intros (Hm & Hd & Hh & Hmi & Hs & Hus) (Hm' & Hd' & Hh' & Hmi' & Hs' & Hus').
  pose proof (ymd2ord_lt y m d y' m' d' Hm Hd Hm' Hd') as L.
  destruct (Z.compare_spec y y'); try discriminate;
    [| intros _; specialize (L ltac:(lia)); lia].
  destruct (Z.compare_spec m m'); try discriminate;
    [| intros _; specialize (L ltac:(lia)); lia].
  destruct (Z.compare_spec d d'); try discriminate;
    [| intros _; specialize (L ltac:(lia)); lia].
  subst y' m' d'. clear L.
  destruct (Z.compare_spec h h'); try discriminate; [| intros _; lia].
  destruct (Z.compare_spec mi mi'); try discriminate; [| intros _; lia].
  destruct (Z.compare_spec s s'); try discriminate; [| intros _; lia].
  destruct (Z.compare_spec us us'); try discriminate. intros _. lia.
Qed.

(** On well-formed objects the comparison of the fields is the comparison
    of the instants. *)
Lemma datetime_cmp_spec (a b : datetime) :
  well_formed a -> well_formed b ->
  datetime_cmp a b = (epoch_microseconds a ?= epoch_microseconds b).
Proof.
  intros Wa Wb. destruct (datetime_cmp a b) eqn:E; symmetry.
  - apply datetime_cmp_eq in E. subst b. apply Z.compare_refl.
  - apply Z.compare_lt_iff. apply datetime_cmp_lt; assumption.
  - apply Z.compare_gt_iff. apply datetime_cmp_lt; try assumption.
    rewrite datetime_cmp_antisym, E. reflexivity.
Qed.

Lemma datetime_lt_irrefl (a : datetime) : ~ datetime_lt a a.
Proof.
  unfold datetime_lt, datetime_cmp. rewrite !Z.compare_refl. discriminate.
Qed.

(** Later offsets give later timestamps. *)
Lemma shift_minutes_lt (t : datetime) (j k : Z) :
  0 <= microsecond t < 1000000 -> j < k ->
  datetime_lt (shift_minutes t j) (shift_minutes t k).
Proof.
  intros Hus Hjk.
  destruct (shift_minutes_fields t j Hus) as (Wj & Ej & Uj).
  destruct (shift_minutes_fields t k Hus) as (Wk & Ek & Uk).
  unfold datetime_lt. rewrite datetime_cmp_spec by assumption.
  apply Z.compare_lt_iff. unfold epoch_microseconds.
  rewrite Ej, Ek, Uj, Uk. lia.
Qed.

Lemma offset_minutes_shift (t : datetime) (i : Z) :
  0 <= microsecond t < 1000000 ->
  offset_minutes t (shift_minutes t i) = i.
Proof.
  intros Hus. destruct (shift_minutes_fields t i Hus) as (_ & E & _).
  unfold offset_minutes. rewrite E.
  replace (epoch_seconds t + 60 * i - epoch_seconds t) with (i * 60) by lia.
  apply Z.div_mul. lia.
Qed.

End DatetimeOrder.

(** ** Loops over a range *)

Section Loops.

Context {A B : Type}.

Lemma for_each_ok (body : A -> result B) (g : A -> B) (l : list A) :
  (forall a, In a l -> body a = Ok (g a)) ->
  for_each body l = Ok (map g l).
Proof.
  induction l as [| a l IH]; intros H; [reflexivity |].
  cbn [for_each map]. rewrite (H a (or_introl eq_refl)). cbn [bind].
  rewrite IH by (intros x Hx; apply H; right; exact Hx).
  reflexivity.
Qed.

Lemma for_each_raise (body : A -> result B) (e : exception) (l : list A) :
  (forall a, In a l -> (exists b, body a = Ok b) \/ body a = Raise e) ->
  (exists a, In a l /\ body a = Raise e) ->
  for_each body l = Raise e.
Proof.
  induction l as [| a l IH]; intros Hall [x [Hin Hx]];
    [destruct Hin |].
  cbn [for_each].
  destruct (Hall a (or_introl eq_refl)) as [[b Hb] | Hr].
  - rewrite Hb. cbn [bind].
    destruct Hin as [-> | Hin]; [congruence |].
    rewrite IH; [reflexivity | | exists x; split; assumption].
    intros y Hy. apply Hall. right. exact Hy.
  - rewrite Hr. reflexivity.
Qed.

End Loops.

Section Ranges.

Lemma py_range_positive (stop step : Z) :
  0 < stop -> 0 < step ->
  py_range 0 stop step
  = Ok (map (fun k => Z.of_nat k * step)
            (seq 0 (Z.to_nat ((stop - 1) / step + 1)))).
Proof.
  intros Hs Hp. unfold py_range, range_len.
  destruct (Z.eqb_spec step 0); [lia |].
  destruct (Z.ltb_spec 0 step); [| lia].
  destruct (Z.ltb_spec 0 stop); [| lia].
  rewrite Z.sub_0_r. reflexivity.
Qed.

Lemma range_count (stop step : Z) :
  0 < stop -> 0 < step ->
  let n := (stop - 1) / step + 1 in
  0 < n /\ (n - 1) * step < stop <= n * step.
Proof.
  intros Hs Hp n. unfold n.
  pose proof (Z.div_mod (stop - 1) step ltac:(lia)) as E.
  pose proof (Z.mod_pos_bound (stop - 1) step Hp) as Bd.
  assert (0 <= (stop - 1) / step) by (apply Z.div_pos; lia).
  split; [lia |].
  replace (((stop - 1) / step + 1 - 1) * step)
    with (step * ((stop - 1) / step)) by lia.
  replace (((stop - 1) / step + 1) * step)
    with (step * ((stop - 1) / step) + step) by lia.
  lia.
Qed.

Context {A : Type}.

Lemma nth_error_map_seq (f : nat -> A) (a n k : nat) :
  nth_error (map f (seq a n)) k
  = if (k <? n)%nat then Some (f (a + k)%nat) else None.
Proof.
  revert a k. induction n as [| n IH]; intros a k.
  - destruct k; reflexivity.
  - destruct k as [| k]; cbn [seq map nth_error].
    + rewrite Nat.add_0_r. reflexivity.
    + rewrite IH. change (S k <? S n)%nat with (k <? n)%nat.
      replace (S a + k)%nat with (a + S k)%nat by lia. reflexivity.
Qed.

Lemma StronglySorted_map_seq (R : A -> A -> Prop) (f : nat -> A)
    (a n : nat) :
  (forall j k, (a <= j)%nat -> (j < k)%nat -> (k < a + n)%nat ->
               R (f j) (f k)) ->
  StronglySorted R (map f (seq a n)).
Proof.
  revert a. induction n as [| n IH]; intros a H; cbn [seq map].
  - constructor.
  - constructor.
    + apply IH. intros j k Hj Hjk Hk. apply H; lia.
    + apply Forall_forall. intros x Hx.
      apply in_map_iff in Hx. destruct Hx as [k [<- Hk]].
      apply in_seq in Hk. apply H; lia.
Qed.

Lemma StronglySorted_NoDup (R : A -> A -> Prop) (l : list A) :
  (forall x, ~ R x x) -> StronglySorted R l -> NoDup l.
Proof.
  intros Hirr Hs. induction Hs as [| x l Hs IH Hall]; constructor.
  - intros Hin. rewrite Forall_forall in Hall.
    exact (Hirr x (Hall x Hin)).
  - exact IH.
Qed.

End Ranges.

(** ** The sequence of a session *)

Section Sequence.

Import AstroSession.

Lemma representable_before (t : datetime) (i j : Z) :
  i <= j -> representable t j -> representable t i.
Proof. unfold representable. lia. Qed.

Lemma timestamp_create_shooting_plan (self : AstroSession.t) (ts : datetime) :
  timestamp (create_shooting_plan self ts) = ts.
Proof. reflexivity. Qed.

(** C1, as the specification states it, fails: positive arguments for
    which the second sample falls after the year 9999 give no list, the
    addition to the start time raises [OverflowError]. *)
Lemma generate_sequence_overflow :
  generate_sequence (AstroSession.mk 40.7128 (-74.0060))
                    (mk_datetime 2026 11 4 12 0 0 0)
                    10000000000 9999999999
  = Raise OverflowError.
Proof.
  unfold generate_sequence.
  replace (py_range 0 10000000000 9999999999) with (Ok [0; 9999999999])
    by (vm_compute; reflexivity).
  cbn [bind for_each].
  replace (add_minutes (mk_datetime 2026 11 4 12 0 0 0) 0)
    with (Ok (mk_datetime 2026 11 4 12 0 0 0)) by (vm_compute; reflexivity).
  replace (add_minutes (mk_datetime 2026 11 4 12 0 0 0) 9999999999)
    with (@Raise datetime OverflowError) by (vm_compute; reflexivity).
  reflexivity.
Qed.

(** C1, amended. For positive duration_minutes and interval_minutes and
    a valid start: when the last sampled instant,
    start + interval * floor((duration - 1) / interval) minutes, is still
    a datetime (before the year 10000), [generate_sequence] returns the
    plans of the timestamps start, start + interval, ..., below
    start + duration; their number is ceil(duration / interval), the
    timestamps are strictly ascending and pairwise distinct, and for
    (120, 15) there are 8 plans at the offsets 0, 15, ..., 105 minutes.
    Otherwise it raises OverflowError. *)
Theorem generate_sequence_spec
    (self : AstroSession.t) (start : datetime)
    (duration_minutes interval_minutes : Z) :
  valid_datetime start ->
  0 < duration_minutes -> 0 < interval_minutes ->
  let last :=
    interval_minutes * ((duration_minutes - 1) / interval_minutes) in
  (representable start last ->
   exists plans,
     generate_sequence self start duration_minutes interval_minutes
     = Ok plans /\
     (let n := Z.of_nat (List.length plans) in
      (n - 1) * interval_minutes < duration_minutes <= n * interval_minutes)
     /\
     (forall k p, nth_error plans k = Some p ->
        let offset := Z.of_nat k * interval_minutes in
        offset < duration_minutes /\
        add_minutes start offset = Ok (timestamp p) /\
        p = create_shooting_plan self (timestamp p)) /\
     StronglySorted datetime_lt (map timestamp plans) /\
     NoDup (map timestamp plans) /\
     (duration_minutes = 120 -> interval_minutes = 15 ->
      List.length plans = 8%nat /\
      map (fun p => offset_minutes start (timestamp p)) plans
      = [0; 15; 30; 45; 60; 75; 90; 105])) /\
  (~ representable start last ->
   generate_sequence self start duration_minutes interval_minutes
   = Raise OverflowError).
Proof.
  intros V Hd Hi last.
  pose proof (range_count duration_minutes interval_minutes Hd Hi) as Hn.
  cbv zeta in Hn. destruct Hn as [Hpos Hceil].
  set (q := (duration_minutes - 1) / interval_minutes) in *.
  assert (Hus : 0 <= microsecond start < 1000000) by apply V.
  unfold generate_sequence.
  rewrite py_range_positive by assumption. fold q. cbn [bind].
  set (n := Z.to_nat (q + 1)).
  assert (En : Z.of_nat n = q + 1) by (unfold n; lia).
  set (body := fun i : Z =>
                 ts <- add_minutes start i ;;
                 Ok (create_shooting_plan self ts)).
  set (g := fun i : Z => create_shooting_plan self (shift_minutes start i)).
  assert (Hoff : forall o,
            In o (map (fun k => Z.of_nat k * interval_minutes) (seq 0 n)) ->
            0 <= o <= last).
  { intros o Ho. apply in_map_iff in Ho. destruct Ho as [k [<- Hk]].
    apply in_seq in Hk. unfold last. nia. }
  split.
  - intros R.
    exists (map g (map (fun k => Z.of_nat k * interval_minutes) (seq 0 n))).
    split.
    { apply for_each_ok. intros o Ho. apply Hoff in Ho. unfold body, g.
      rewrite add_minutes_ok;
        [reflexivity | assumption | lia |].
      apply (representable_before start o last); [lia | exact R]. }
    rewrite map_map.
    split.
    { rewrite length_map, length_seq. rewrite En.
      replace (q + 1 - 1) with q by lia. lia. }
    split.
    { intros k p Hk. rewrite nth_error_map_seq in Hk.
      destruct (Nat.ltb_spec k n) as [Hlt | _]; [| discriminate].
      injection Hk as <-. cbn [Nat.add].
      set (offset := Z.of_nat k * interval_minutes).
      assert (Ho : 0 <= offset <= last) by (unfold offset, last; nia).
      split; [unfold last in Ho; nia |].
      split.
      - unfold g. rewrite timestamp_create_shooting_plan.
        apply add_minutes_ok; [assumption | lia |].
        apply (representable_before start offset last); [lia | exact R].
      - unfold g. rewrite timestamp_create_shooting_plan. reflexivity. }
    rewrite map_map.
    assert (Hsorted :
              StronglySorted datetime_lt
                (map (fun k => timestamp (g (Z.of_nat k * interval_minutes)))
                     (seq 0 n))).
    { apply StronglySorted_map_seq. intros j k _ Hjk _.
      unfold g. rewrite !timestamp_create_shooting_plan.
      apply shift_minutes_lt; [assumption | nia]. }
    split; [exact Hsorted |].
    split.
    { apply (StronglySorted_NoDup datetime_lt);
        [exact datetime_lt_irrefl | exact Hsorted]. }
    intros E120 E15. subst duration_minutes interval_minutes.
    assert (Eq8 : n = 8%nat) by (unfold n, q; reflexivity).
    rewrite Eq8. split; [reflexivity |].
    rewrite map_map.
    rewrite (map_ext _ (fun k : nat => Z.of_nat k * 15)).
    + reflexivity.
    + intros k. unfold g. rewrite timestamp_create_shooting_plan.
      apply offset_minutes_shift. assumption.
  - intros R. apply for_each_raise.
    + intros o Ho. apply Hoff in Ho.
      destruct (Z.lt_ge_cases (epoch_seconds start + 60 * o)
                              ((MAXORDINAL + 1) * 86400)) as [Hr | Hr].
      * left. exists (g o). unfold body, g.
        rewrite add_minutes_ok; [reflexivity | assumption | lia | exact Hr].
      * right. unfold body.
        rewrite add_minutes_overflow;
          [reflexivity | assumption | lia | unfold representable; lia].
    + exists last. split.
      * apply in_map_iff. exists (Z.to_nat q). split.
        -- unfold last. rewrite Z2Nat.id by lia. lia.
        -- apply in_seq. lia.
      * unfold body.
        rewrite add_minutes_overflow;
          [reflexivity | assumption | unfold last; nia | exact R].
Qed.

Lemma generate_sequence_spec_witness :
  exists plans,
    generate_sequence (AstroSession.mk 40.7128 (-74.0060))
                      (mk_datetime 2026 11 4 12 0 0 0) 120 15
    = Ok plans /\
    List.length plans = 8%nat.
Proof.
  assert (V : valid_datetime (mk_datetime 2026 11 4 12 0 0 0))
    by (repeat split; vm_compute; easy).
  assert (R : representable (mk_datetime 2026 11 4 12 0 0 0)
                            (15 * ((120 - 1) / 15)))
    by (vm_compute; reflexivity).
  destruct (generate_sequence_spec (AstroSession.mk 40.7128 (-74.0060))
              (mk_datetime 2026 11 4 12 0 0 0) 120 15 V
              ltac:(lia) ltac:(lia)) as [H _].
  destruct (H R) as (plans & E & _ & _ & _ & _ & H8).
  exists plans. split; [exact E | apply H8; reflexivity].
Defined.

End Sequence.

(** ** Worked examples *)

Section Examples.

Example ordinal_of_2000 :
  ymd2ord 2000 1 1 = 730120 /\ ord2ymd 730120 = (2000, 1, 1) /\
  ord2ymd 1 = (1, 1, 1) /\ ord2ymd MAXORDINAL = (9999, 12, 31).
Proof. repeat split. Qed.

Example leap_day_2000 :
  ord2ymd (ymd2ord 2000 2 28 + 1) = (2000, 2, 29) /\
  ord2ymd (ymd2ord 1900 2 28 + 1) = (1900, 3, 1).
Proof. split; reflexivity. Qed.

Example add_minutes_across_midnight :
  add_minutes (mk_datetime 2026 11 4 23 0 0 5) 90
  = Ok (mk_datetime 2026 11 5 0 30 0 5).
Proof. reflexivity. Qed.

Example add_minutes_last_hour :
  add_minutes (mk_datetime 9999 12 31 23 0 0 0) 59
  = Ok (mk_datetime 9999 12 31 23 59 0 0) /\
  add_minutes (mk_datetime 9999 12 31 23 0 0 0) 60 = Raise OverflowError.
Proof. split; reflexivity. Qed.

Example py_range_examples :
  py_range 0 120 15 = Ok [0; 15; 30; 45; 60; 75; 90; 105] /\
  py_range 0 121 15 = Ok [0; 15; 30; 45; 60; 75; 90; 105; 120] /\
  py_range 0 0 15 = Ok [] /\
  py_range 0 (-5) (-2) = Ok [0; -2; -4] /\
  py_range 0 5 0 = Raise ValueError.
Proof. repeat split. Qed.

Open Scope R_scope.

Lemma round_half_even_near (x : R) (a : Z) :
  IZR a - 1 / 2 < x < IZR a + 1 / 2 -> round_half_even x = a.
Proof.
  intros [Hlo Hhi]. unfold round_half_even.
  destruct (Rlt_dec x (IZR a)) as [Hlt | Hge].
  - assert (F : Zfloor x = (a - 1)%Z)
      by (apply Zfloor_eq; rewrite minus_IZR; lra).
    rewrite F, minus_IZR.
    destruct (Rlt_dec _ _); [lra |].
    destruct (Rlt_dec _ _); [lia | lra].
  - assert (F : Zfloor x = a) by (apply Zfloor_eq; lra).
    rewrite F.
    destruct (Rlt_dec _ _); [reflexivity | lra].
Qed.

Lemma py_round_near (x : R) (a : Z) :
  IZR a - 1 / 2 < x * 10 < IZR a + 1 / 2 -> py_round x 1 = IZR a / 10.
Proof.
  intros H. unfold py_round. rewrite pow_1.
  rewrite (round_half_even_near (x * 10) a H). reflexivity.
Qed.

(** The case of the demo: two hours at 24 frames per second for a
    30-second film. *)
Example calculate_interval_two_hours :
  TimelapseCalculator.calculate_interval 2.0 24 30
  = Ok (TimelapseCalculator.mk_settings 10.0 720 17.6 1.5 24).
Proof.
  unfold TimelapseCalculator.calculate_interval.
  change (24 * 30)%Z with 720%Z. change (720 * 25)%Z with 18000%Z.
  rewrite true_div_nonzero by lra. cbn [bind].
  rewrite (py_round_near (2.0 * 3600 / 720) 100) by lra.
  rewrite (py_round_near (18000 / 1024) 176) by lra.
  rewrite (py_round_near (2.0 * 0.75) 15) by lra.
  repeat f_equal; lra.
Qed.

End Examples.

(** * Further properties of the planner *)

(** ** Rounding *)

Section Rounding.

Open Scope R_scope.

Lemma round_half_even_bounds (x : R) :
  IZR (round_half_even x) - 1 / 2 <= x <= IZR (round_half_even x) + 1 / 2.
Proof.
  unfold round_half_even. destruct (Zfloor_bound x) as [Hlo Hhi].
  destruct (Rlt_dec _ _) as [H1 | H1]; [lra |].
  destruct (Rlt_dec _ _) as [H2 | H2]; [rewrite plus_IZR; lra |].
  destruct (Z.even _); [lra | rewrite plus_IZR; lra].
Qed.

Lemma round_half_even_mono (x y : R) :
  x <= y -> (round_half_even x <= round_half_even y)%Z.
Proof.
  intros [Hlt | ->]; [| lia].
  pose proof (round_half_even_bounds x) as Bx.
  pose proof (round_half_even_bounds y) as By.
  assert (H : IZR (round_half_even x) < IZR (round_half_even y) + 1) by lra.
  rewrite <- plus_IZR in H. apply lt_IZR in H. lia.
Qed.

Lemma pow10_pos (n : nat) : 0 < 10 ^ n.
Proof. apply pow_lt. lra. Qed.

(** Rounding moves a value by at most half a unit of the last digit. *)
Lemma py_round_error (x : R) (n : nat) :
  - (1 / 2) / 10 ^ n <= py_round x n - x <= (1 / 2) / 10 ^ n.
Proof.
  unfold py_round. pose proof (pow10_pos n) as P.
  pose proof (round_half_even_bounds (x * 10 ^ n)) as [Hlo Hhi].
  set (r := IZR (round_half_even (x * 10 ^ n))) in *.
  replace (r / 10 ^ n - x) with ((r - x * 10 ^ n) / 10 ^ n)
    by (field; lra).
  split.
  - apply Rmult_le_compat_r; [left; apply Rinv_0_lt_compat; exact P | lra].
  - apply Rmult_le_compat_r; [left; apply Rinv_0_lt_compat; exact P | lra].
Qed.

Lemma py_round_mono (x y : R) (n : nat) :
  x <= y -> py_round x n <= py_round y n.
Proof.
  intros H. unfold py_round. pose proof (pow10_pos n) as P.
  apply Rmult_le_compat_r; [left; apply Rinv_0_lt_compat; exact P |].
  apply IZR_le. apply round_half_even_mono.
  apply Rmult_le_compat_r; lra.
Qed.

(** A value that is a whole number of units of the last digit is kept. *)
Lemma py_round_grid (a : Z) (n : nat) :
  py_round (IZR a / 10 ^ n) n = IZR a / 10 ^ n.
Proof.
  unfold py_round. pose proof (pow10_pos n) as P.
  replace (IZR a / 10 ^ n * 10 ^ n) with (IZR a) by (field; lra).
  rewrite (round_half_even_near (IZR a) a) by lra. reflexivity.
Qed.

End Rounding.

(** ** The plan of one timestamp *)

Section Plan.

Open Scope R_scope.
Import AstroSession.

Lemma lunar_elevation_band (jd latitude longitude : R) :
  24.872 <= snd (AstronomyCalculator.lunar_position jd latitude longitude)
         <= 35.128.
Proof.
  rewrite lunar_position_elevation.
  match goal with |- context [sin ?a] => pose proof (SIN_bound a) end.
  lra.
Qed.

Lemma lunar_phase_range (jd : R) :
  0 <= AstronomyCalculator.lunar_phase jd <= 1.
Proof.
  unfold AstronomyCalculator.lunar_phase. cbv zeta.
  match goal with |- context [cos ?a] => pose proof (COS_bound a) end.
  lra.
Qed.

Lemma get_lunar_data_ranges (self : AstroSession.t) (ts : datetime) :
  let c := get_lunar_data self ts in
  0 <= azimuth (position c) < 360 /\
  24.872 <= elevation (position c) <= 35.128 /\
  0 <= phase c <= 1.
Proof.
  pose proof (get_lunar_data_fields self ts) as E. cbv zeta in *.
  rewrite E. cbn [position azimuth elevation phase].
  split; [| split].
  - unfold AstronomyCalculator.lunar_position. cbn [fst].
    apply float_mod_bounds. lra.
  - apply lunar_elevation_band.
  - apply lunar_phase_range.
Qed.

Lemma Rmax_floor_inactive (x : R) : 2.8 <= x -> Rmax 2.8 x = x.
Proof. intros H. apply Rmax_right. exact H. Qed.

(** X1. The camera configuration of a plan is one of four: the Clear preset
    or the Atmospheric preset, as it is or with the dim-moon adjustment
    (ISO doubled, aperture one stop wider). The Low-horizon and Deep-sky
    presets are never used. *)
Theorem create_shooting_plan_config (self : AstroSession.t) (ts : datetime) :
  let c := camera_config (create_shooting_plan self ts) in
  c = CameraConfig4 200 8.0 (1 / 125) 300 \/
  c = CameraConfig4 400 7.0 (1 / 125) 300 \/
  c = CameraConfig4 400 5.6 (1 / 200) 250 \/
  c = CameraConfig4 800 4.6 (1 / 200) 250.
Proof.
  unfold create_shooting_plan. cbn [camera_config].
  pose proof (get_lunar_data_ranges self ts) as (_ & [Hlo Hhi] & _).
  set (d := get_lunar_data self ts) in *.
  unfold condition. rewrite (float_lt_false _ 15) by lra.
  unfold CameraPresets.get_config.
  destruct (Rlt_dec (elevation (position d)) 30) as [Hel | Hel];
    destruct (Rlt_dec (0.3 + 0.7 * phase d) 0.5) as [Hp | Hp].
  - rewrite float_lt_true by assumption.
    rewrite adjust_for_phase_dim by assumption.
    right; right; right. cbn [CameraPresets.PRESETS CameraConfig4 iso f_stop
                               shutter focal_length].
    unfold CameraConfig4. f_equal. rewrite Rmax_floor_inactive; lra.
  - rewrite float_lt_true by assumption.
    rewrite adjust_for_phase_bright by lra.
    right; right; left. reflexivity.
  - rewrite float_lt_false by lra.
    rewrite adjust_for_phase_dim by assumption.
    right; left. cbn [CameraPresets.PRESETS CameraConfig4 iso f_stop
                       shutter focal_length].
    unfold CameraConfig4. f_equal. rewrite Rmax_floor_inactive; lra.
  - rewrite float_lt_false by lra.
    rewrite adjust_for_phase_bright by lra.
    left. reflexivity.
Qed.

(** X2. The exposure compensation of a plan is 0.5 EV below 30 degrees of
    elevation and 0 from 30 degrees on, plus -2.5 * phase + 1.5; it stays
    between -1 and 2 EV. *)
Theorem create_shooting_plan_exposure (self : AstroSession.t) (ts : datetime) :
  let p := create_shooting_plan self ts in
  let d := celestial_data p in
  exposure_comp p
  = (if float_lt (elevation (position d)) 30 then 0.5 else 0)
    + (-2.5 * phase d + 1.5) /\
  -1 <= exposure_comp p <= 2.
Proof.
  unfold create_shooting_plan. cbn [exposure_comp celestial_data].
  pose proof (get_lunar_data_ranges self ts) as (_ & [Hlo Hhi] & [Hp0 Hp1]).
  set (d := get_lunar_data self ts) in *.
  unfold ExposureCalculator.total_compensation,
    ExposureCalculator.atmospheric_compensation,
    ExposureCalculator.phase_compensation.
  rewrite (float_lt_false _ 10), (float_lt_false _ 20) by lra.
  destruct (float_lt (elevation (position d)) 30); split; lra.
Qed.

(** X3. The lunar data of any timestamp have a phase between 0 and 1 and a
    magnitude between -15.2 (full moon) and -2.5 (new moon). *)
Theorem get_lunar_data_magnitude (self : AstroSession.t) (ts : datetime) :
  let c := get_lunar_data self ts in
  0 <= phase c <= 1 /\ -15.2 <= magnitude c <= -2.5.
Proof.
  pose proof (get_lunar_data_ranges self ts) as (_ & _ & H).
  pose proof (get_lunar_data_fields self ts) as E. cbv zeta in *.
  rewrite E in *. cbn [phase magnitude] in *. lra.
Qed.

End Plan.

(** ** The Julian day along the time line *)

Section JulianDayLine.

Import AstronomyCalculator.

(** The Julian day is the instant in days, up to a constant. *)
Lemma julian_day_epoch (t : datetime) :
  1 <= month t <= 12 ->
  (julian_day t = IZR (epoch_seconds t) / 86400 + 1721424.5)%R.
Proof.
  intros Hm.
  pose proof (jdn_formula_ordinal (year t) (month t) (day t) Hm) as E.
  cbv zeta in E.
  unfold julian_day, day_fraction, julian_day_number. rewrite E.
  unfold standard_jdn.
  replace (ymd2ord (-4713) 11 24) with (-1721425) by reflexivity.
  unfold epoch_seconds, toordinal.
  rewrite !plus_IZR, !mult_IZR, minus_IZR. lra.
Qed.

Lemma add_minutes_shift (t u : datetime) (i : Z) :
  valid_datetime t -> 0 <= i -> add_minutes t i = Ok u ->
  u = shift_minutes t i.
Proof.
  intros V Hi E.
  destruct (Z.lt_ge_cases (epoch_seconds t + 60 * i)
                          ((MAXORDINAL + 1) * 86400)) as [Hr | Hr].
  - rewrite add_minutes_ok in E by assumption. congruence.
  - rewrite add_minutes_overflow in E;
      [discriminate | assumption | assumption | unfold representable; lia].
Qed.

Open Scope R_scope.

(** X4. Adding i minutes to a timestamp advances its Julian day by exactly
    i / 1440, across midnights, month ends and leap days alike. *)
Theorem julian_day_add_minutes (t u : datetime) (i : Z) :
  valid_datetime t -> (0 <= i)%Z -> add_minutes t i = Ok u ->
  julian_day u = julian_day t + IZR i / 1440.
Proof.
  intros V Hi E.
  apply add_minutes_shift in E; try assumption. subst u.
  destruct V as [_ W].
  destruct (shift_minutes_fields t i ltac:(apply W)) as (Wu & Eu & _).
  rewrite (julian_day_epoch t) by apply W.
  rewrite (julian_day_epoch (shift_minutes t i)) by apply Wu.
  rewrite Eu, plus_IZR, mult_IZR. lra.
Qed.

Lemma julian_day_add_minutes_witness :
  julian_day (mk_datetime 2024 3 1 0 30 0 0)
  = julian_day (mk_datetime 2024 2 29 23 0 0 0) + 90 / 1440.
Proof.
  apply (julian_day_add_minutes (mk_datetime 2024 2 29 23 0 0 0)
           (mk_datetime 2024 3 1 0 30 0 0) 90).
  - repeat split; vm_compute; easy.
  - lia.
  - reflexivity.
Defined.

(** X5. The Julian day follows the order of the timestamps: an earlier
    timestamp never has a later Julian day, and its Julian day is strictly
    earlier when the two have the same microseconds. *)
Theorem julian_day_monotone (a b : datetime) :
  well_formed a -> well_formed b -> datetime_lt a b ->
  julian_day a <= julian_day b /\
  (microsecond a = microsecond b -> julian_day a < julian_day b).
Proof.
  intros Wa Wb Hlt.
  pose proof (datetime_cmp_lt a b Wa Wb Hlt) as H.
  unfold epoch_microseconds in H.
  rewrite (julian_day_epoch a) by apply Wa.
  rewrite (julian_day_epoch b) by apply Wb.
  assert (Ua : (0 <= microsecond a < 1000000)%Z) by apply Wa.
  assert (Ub : (0 <= microsecond b < 1000000)%Z) by apply Wb.
  split.
  - assert (L : (epoch_seconds a <= epoch_seconds b)%Z) by lia.
    apply IZR_le in L. lra.
  - intros Eus.
    assert (L : (epoch_seconds a < epoch_seconds b)%Z) by lia.
    apply IZR_lt in L. lra.
Qed.

Lemma julian_day_monotone_witness :
  julian_day (mk_datetime 2026 12 31 23 59 59 0)
  < julian_day (mk_datetime 2027 1 1 0 0 0 0).
Proof.
  apply (julian_day_monotone (mk_datetime 2026 12 31 23 59 59 0)
           (mk_datetime 2027 1 1 0 0 0 0)).
  - repeat split; vm_compute; easy.
  - repeat split; vm_compute; easy.
  - reflexivity.
  - reflexivity.
Defined.

End JulianDayLine.

(** ** The periods of the ephemeris *)

Section Periods.

Open Scope R_scope.
Import AstronomyCalculator.

Lemma cos_period_Z (x : R) (k : Z) : cos (x + 2 * IZR k * PI) = cos x.
Proof.
  destruct (Z.le_gt_cases 0 k) as [Hk | Hk].
  - rewrite <- (Z2Nat.id k Hk), <- INR_IZR_INZ. apply cos_period.
  - rewrite <- (cos_period (x + 2 * IZR k * PI) (Z.to_nat (- k))).
    rewrite INR_IZR_INZ, Z2Nat.id by lia. rewrite opp_IZR.
    f_equal. ring.
Qed.

Lemma sin_period_Z (x : R) (k : Z) : sin (x + 2 * IZR k * PI) = sin x.
Proof.
  destruct (Z.le_gt_cases 0 k) as [Hk | Hk].
  - rewrite <- (Z2Nat.id k Hk), <- INR_IZR_INZ. apply sin_period.
  - rewrite <- (sin_period (x + 2 * IZR k * PI) (Z.to_nat (- k))).
    rewrite INR_IZR_INZ, Z2Nat.id by lia. rewrite opp_IZR.
    f_equal. ring.
Qed.

Lemma degrees_sub (x y : R) :
  x * PI / 180 - y * PI / 180 = (x - y) * PI / 180.
Proof. field. Qed.

Lemma degrees_turns (x k : R) :
  x * PI / 180 + 2 * k * PI = (x + 360 * k) * PI / 180.
Proof. field. Qed.

(** The reductions modulo 360 do not matter to the phase. *)
Lemma lunar_phase_closed_form (jd : R) :
  lunar_phase jd
  = (1 + cos (radians (218.316 - 280.466
                       + 12.190749 * (jd - 2451545.0)))) / 2.
Proof.
  unfold lunar_phase, float_mod, radians. cbv zeta.
  set (d := jd - 2451545.0).
  set (kL := Zfloor ((218.316 + 13.176396 * d) / 360)).
  set (kS := Zfloor ((280.466 + 0.985647 * d) / 360)).
  rewrite <- (cos_period_Z ((218.316 - 280.466 + 12.190749 * d) * PI / 180)
                           (kS - kL)).
  rewrite minus_IZR, degrees_sub, degrees_turns.
  do 3 f_equal. lra.
Qed.

(** X6. The phase repeats after 360 / 12.190749 days (about 29.53, the
    synodic month): the rates of the two mean longitudes differ by
    12.190749 degrees a day. *)
Theorem lunar_phase_period (jd : R) :
  lunar_phase (jd + 360 / 12.190749) = lunar_phase jd.
Proof.
  rewrite !lunar_phase_closed_form. unfold radians.
  rewrite <- (cos_period_Z
                ((218.316 - 280.466 + 12.190749 * (jd - 2451545.0))
                 * PI / 180) 1).
  rewrite degrees_turns. do 3 f_equal. lra.
Qed.

(** X7. The elevation repeats after 360 / 13.229350 days (about 27.21) and
    is the same for every observer: latitude and longitude are not used. *)
Theorem lunar_elevation_period (jd lat1 lon1 lat2 lon2 : R) :
  snd (lunar_position (jd + 360 / 13.229350) lat1 lon1)
  = snd (lunar_position jd lat2 lon2).
Proof.
  rewrite !lunar_position_elevation. unfold radians.
  rewrite <- (sin_period_Z
                ((93.272 + 13.229350 * (jd - 2451545.0)) * PI / 180) 1).
  rewrite degrees_turns. do 3 f_equal. lra.
Qed.

End Periods.

(** ** The phase adjustment on arbitrary configurations *)

Section Adjustment.

Open Scope R_scope.
Import CameraPresets.

(** X8. On a configuration within the caps (0 <= iso <= 3200 and
    f_stop >= 2.8) the adjustment never lowers the ISO, never closes the
    aperture, and stays within the caps, whatever the phase. *)
Theorem adjust_for_phase_within_caps (config : CameraConfig) (p : R) :
  (0 <= iso config <= 3200)%Z -> 2.8 <= f_stop config ->
  let r := adjust_for_phase config p in
  (iso config <= iso r <= 3200)%Z /\ 2.8 <= f_stop r <= f_stop config.
Proof.
  intros Hi Hf r. unfold r.
  destruct (Rlt_dec (0.3 + 0.7 * p) 0.5) as [Hd | Hb].
  - rewrite adjust_for_phase_dim by assumption.
    unfold CameraConfig4. cbn [iso f_stop].
    split; [lia |].
    unfold Rmax. destruct (Rle_dec 2.8 (f_stop config - 1)); lra.
  - rewrite adjust_for_phase_bright by lra.
    unfold CameraConfig4. cbn [iso f_stop]. split; [lia | lra].
Qed.

Lemma adjust_for_phase_within_caps_witness :
  (1600 <= iso (adjust_for_phase (get_config DEEP_SKY) 0.1) <= 3200)%Z.
Proof.
  apply (adjust_for_phase_within_caps (get_config DEEP_SKY) 0.1).
  - cbn. lia.
  - cbn. lra.
Defined.





End Adjustment.

(** ** Conditions and compensation *)

Section Compensation.

Open Scope R_scope.
Import ExposureCalculator.

(** X11. The atmospheric compensation agrees with the classifier: it is
    0 exactly when the condition is Clear, 1.0 or 0.5 when it is
    Atmospheric, and 2.0 or 1.0 when it is Low-horizon. *)
Theorem atmospheric_compensation_condition (c : CelestialData) :
  let a := atmospheric_compensation (elevation (position c)) in
  (condition c = CLEAR <-> a = 0.0) /\
  (condition c = ATMOSPHERIC -> a = 1.0 \/ a = 0.5) /\
  (condition c = LOW_HORIZON -> a = 2.0 \/ a = 1.0).
Proof.
  unfold condition, atmospheric_compensation.
  set (e := elevation (position c)).
  unfold float_lt.
  destruct (Rlt_dec e 10), (Rlt_dec e 15), (Rlt_dec e 20), (Rlt_dec e 30);
    try lra; cbv zeta;
    (split; [split; intros H; try discriminate; try reflexivity; lra |]);
    split; intros H; try discriminate; auto.
Qed.

(** X12. The atmospheric compensation never grows with the elevation, and
    for a phase between 0 and 1 the total compensation stays between -1
    and 3.5 EV. *)
Theorem total_compensation_range (c c' : CelestialData) :
  (elevation (position c) <= elevation (position c') ->
   atmospheric_compensation (elevation (position c'))
   <= atmospheric_compensation (elevation (position c))) /\
  (0 <= phase c <= 1 -> -1 <= total_compensation c <= 3.5).
Proof.
  unfold total_compensation, phase_compensation, atmospheric_compensation,
    float_lt.
  split.
  - intros H.
    destruct (Rlt_dec (elevation (position c')) 10),
             (Rlt_dec (elevation (position c')) 20),
             (Rlt_dec (elevation (position c')) 30),
             (Rlt_dec (elevation (position c)) 10),
             (Rlt_dec (elevation (position c)) 20),
             (Rlt_dec (elevation (position c)) 30); lra.
  - intros H.
    destruct (Rlt_dec (elevation (position c)) 10),
             (Rlt_dec (elevation (position c)) 20),
             (Rlt_dec (elevation (position c)) 30); lra.
Qed.

Lemma total_compensation_range_witness :
  -1 <= total_compensation
          (mk_CelestialData (mk_Position 180 5) 0.0 384400 31.1 (-2.5))
     <= 3.5.
Proof.
  apply (total_compensation_range
           (mk_CelestialData (mk_Position 180 5) 0.0 384400 31.1 (-2.5))
           (mk_CelestialData (mk_Position 180 5) 0.0 384400 31.1 (-2.5))).
  cbn. lra.
Defined.

End Compensation.

(** ** The timelapse settings *)

Section TimelapseSettings.

Open Scope R_scope.
Import TimelapseCalculator.

(** X13. With a nonzero number of frames the settings report that number
    and the playback rate unchanged, and the interval, the storage and the
    battery time within 0.05 of total_seconds / frames, frames * 25 / 1024
    and 0.75 * duration_hours. *)
Theorem calculate_interval_settings
    (duration_hours : R) (target_fps final_duration_seconds : Z) :
  (target_fps * final_duration_seconds <> 0)%Z ->
  let frames := (target_fps * final_duration_seconds)%Z in
  exists s,
    calculate_interval duration_hours target_fps final_duration_seconds = Ok s
    /\ total_frames s = frames
    /\ playback_fps s = target_fps
    /\ -0.05 <= interval_seconds s - duration_hours * 3600 / IZR frames <= 0.05
    /\ -0.05 <= storage_gb s - IZR (frames * 25) / 1024 <= 0.05
    /\ -0.05 <= battery_hours s - duration_hours * 0.75 <= 0.05.
Proof.
  intros H frames. unfold calculate_interval. fold frames.
  rewrite true_div_nonzero by (apply not_0_IZR; exact H).
  cbn [bind]. eexists. split; [reflexivity |].
  cbn [total_frames playback_fps interval_seconds storage_gb battery_hours].
  pose proof (py_round_error (duration_hours * 3600 / IZR frames) 1) as E1.
  pose proof (py_round_error (IZR (frames * 25) / 1024) 1) as E2.
  pose proof (py_round_error (duration_hours * 0.75) 1) as E3.
  rewrite pow_1 in E1, E2, E3.
  repeat split; lra.
Qed.

Lemma calculate_interval_settings_witness :
  exists s,
    calculate_interval 2.0 24 30 = Ok s /\ total_frames s = 720%Z.
Proof.
  destruct (calculate_interval_settings 2.0 24 30 ltac:(discriminate))
    as (s & E & F & _).
  exists s. split; [exact E | exact F].
Defined.

End TimelapseSettings.

(** ** Edge cases of the sequence *)

Section SequenceEdges.

Import AstroSession.

Lemma generate_sequence_no_sample
    (self : AstroSession.t) (start : datetime)
    (duration_minutes interval_minutes : Z) :
  (duration_minutes <= 0 /\ 0 < interval_minutes) \/
  (0 <= duration_minutes /\ interval_minutes < 0) ->
  generate_sequence self start duration_minutes interval_minutes = Ok [].
Proof.
  intros H. unfold generate_sequence, py_range, range_len.
  destruct (Z.eqb_spec interval_minutes 0); [lia |].
  destruct (Z.ltb_spec 0 interval_minutes);
    [destruct (Z.ltb_spec 0 duration_minutes)
    | destruct (Z.ltb_spec duration_minutes 0)]; try lia; reflexivity.
Qed.

(** X14. The degenerate calls: an interval of 0 minutes raises ValueError
    (the range of the loop refuses a zero step); a duration of 0 or less
    with a positive interval, and a duration of 0 or more with a negative
    interval, give the empty sequence, not an error. *)
Theorem generate_sequence_degenerate
    (self : AstroSession.t) (start : datetime)
    (duration_minutes interval_minutes : Z) :
  (interval_minutes = 0 ->
   generate_sequence self start duration_minutes interval_minutes
   = Raise ValueError) /\
  ((duration_minutes <= 0 /\ 0 < interval_minutes) \/
   (0 <= duration_minutes /\ interval_minutes < 0) ->
   generate_sequence self start duration_minutes interval_minutes = Ok []).
Proof.
  split.
  - intros ->. reflexivity.
  - apply generate_sequence_no_sample.
Qed.

(** The plans of a sequence, when every sample is a datetime. *)
Lemma generate_sequence_plans
    (self : AstroSession.t) (start : datetime)
    (duration_minutes interval_minutes : Z) :
  valid_datetime start ->
  0 < duration_minutes -> 0 < interval_minutes ->
  representable start
    (interval_minutes * ((duration_minutes - 1) / interval_minutes)) ->
  generate_sequence self start duration_minutes interval_minutes
  = Ok (map (fun k => create_shooting_plan self
                        (shift_minutes start (Z.of_nat k * interval_minutes)))
            (seq 0 (Z.to_nat ((duration_minutes - 1) / interval_minutes + 1)))).
Proof.
  intros V Hd Hi R.
  pose proof (range_count duration_minutes interval_minutes Hd Hi) as Hn.
  cbv zeta in Hn. destruct Hn as [Hpos _].
  unfold generate_sequence.
  rewrite py_range_positive by assumption. cbn [bind].
  set (q := (duration_minutes - 1) / interval_minutes) in *.
  rewrite (for_each_ok _ (fun i => create_shooting_plan self
                                     (shift_minutes start i))).
  - rewrite map_map. reflexivity.
  - intros o Ho. apply in_map_iff in Ho. destruct Ho as [k [<- Hk]].
    apply in_seq in Hk.
    rewrite add_minutes_ok; [reflexivity | assumption | nia |].
    apply (representable_before start _ (interval_minutes * q));
      [nia | exact R].
Qed.

Lemma shift_minutes_second (t : datetime) (i : Z) :
  well_formed t ->
  second (shift_minutes t i) = second t /\
  microsecond (shift_minutes t i) = microsecond t.
Proof.
  intros (_ & _ & Hh & Hmi & Hs & _). unfold shift_minutes.
  destruct (ord2ymd _) as [[y m] dd]. cbn [second microsecond].
  split; [| reflexivity].
  unfold epoch_seconds.
  set (o := toordinal t). clearbody o.
  Z.div_mod_to_equations. lia.
Qed.

(** X15. Every timestamp of a sequence keeps the seconds and the
    microseconds of the start time: only whole minutes are added. *)
Theorem generate_sequence_seconds
    (self : AstroSession.t) (start : datetime)
    (duration_minutes interval_minutes : Z) (plans : list ShootingPlan) :
  valid_datetime start ->
  0 < interval_minutes ->
  generate_sequence self start duration_minutes interval_minutes = Ok plans ->
  Forall (fun p => second (timestamp p) = second start /\
                   microsecond (timestamp p) = microsecond start) plans.
Proof.
  intros V Hi E.
  destruct (Z.le_gt_cases duration_minutes 0) as [Hd | Hd].
  - rewrite generate_sequence_no_sample in E by (left; lia).
    injection E as <-. constructor.
  - destruct (Z.lt_ge_cases
                (epoch_seconds start
                 + 60 * (interval_minutes
                         * ((duration_minutes - 1) / interval_minutes)))
                ((MAXORDINAL + 1) * 86400)) as [Hr | Hr].
    + rewrite generate_sequence_plans in E by (assumption || lia).
      injection E as <-. apply Forall_forall. intros p Hp.
      apply in_map_iff in Hp. destruct Hp as [k [<- _]].
      cbn [timestamp create_shooting_plan].
      apply shift_minutes_second. apply V.
    + exfalso.
      pose proof (range_count duration_minutes interval_minutes
                    ltac:(lia) Hi) as Hn.
      cbv zeta in Hn. destruct Hn as [Hpos _].
      unfold generate_sequence in E.
      rewrite py_range_positive in E by lia. cbn [bind] in E.
      rewrite (for_each_raise _ OverflowError) in E; [discriminate | |].
      * intros o Ho. apply in_map_iff in Ho. destruct Ho as [k [<- Hk]].
        destruct (Z.lt_ge_cases
                    (epoch_seconds start + 60 * (Z.of_nat k * interval_minutes))
                    ((MAXORDINAL + 1) * 86400)) as [Hk' | Hk'].
        -- left. eexists.
           rewrite add_minutes_ok; [reflexivity | assumption | nia | exact Hk'].
        -- right.
           rewrite add_minutes_overflow;
             [reflexivity | assumption | nia | unfold representable; lia].
      * exists (interval_minutes * ((duration_minutes - 1) / interval_minutes)).
        split.
        -- apply in_map_iff.
           exists (Z.to_nat ((duration_minutes - 1) / interval_minutes)).
           split; [rewrite Z2Nat.id by lia; lia | apply in_seq; lia].
        -- rewrite add_minutes_overflow;
             [reflexivity | assumption | nia | unfold representable; lia].
Qed.

Lemma generate_sequence_seconds_witness :
  Forall (fun p => second (timestamp p) = 42 /\ microsecond (timestamp p) = 7)
         [create_shooting_plan (AstroSession.mk 40.7128 (-74.0060))
            (mk_datetime 2026 11 4 23 58 42 7);
          create_shooting_plan (AstroSession.mk 40.7128 (-74.0060))
            (mk_datetime 2026 11 5 0 3 42 7)].
Proof.
  apply (generate_sequence_seconds (AstroSession.mk 40.7128 (-74.0060))
           (mk_datetime 2026 11 4 23 58 42 7) 10 5).
  - repeat split; vm_compute; easy.
  - lia.
  - unfold generate_sequence.
    replace (py_range 0 10 5) with (Ok [0; 5]) by reflexivity.
    cbn [bind for_each].
    replace (add_minutes (mk_datetime 2026 11 4 23 58 42 7) 0)
      with (Ok (mk_datetime 2026 11 4 23 58 42 7)) by reflexivity.
    replace (add_minutes (mk_datetime 2026 11 4 23 58 42 7) 5)
      with (Ok (mk_datetime 2026 11 5 0 3 42 7)) by reflexivity.
    reflexivity.
Defined.

End SequenceEdges.

(** ** The exported plan *)

Section PlanExport.

Open Scope R_scope.

(** X16. The dictionary of a plan carries the ISO, f-stop, shutter and
    focal length unchanged, and the azimuth, elevation and exposure
    compensation within 0.05 and the phase within 0.005 of their values. *)
Theorem to_dict_rounding (p : ShootingPlan) :
  let d := to_dict p in
  PlanDict.iso d = iso (camera_config p) /\
  PlanDict.f_stop d = f_stop (camera_config p) /\
  PlanDict.shutter d = shutter (camera_config p) /\
  PlanDict.focal_length d = focal_length (camera_config p) /\
  -0.05 <= PlanDict.azimuth d - azimuth (position (celestial_data p)) <= 0.05
  /\
  -0.05 <= PlanDict.elevation d - elevation (position (celestial_data p))
        <= 0.05 /\
  -0.005 <= PlanDict.phase d - phase (celestial_data p) <= 0.005 /\
  -0.05 <= PlanDict.exposure_comp d - exposure_comp p <= 0.05.
Proof.
  unfold to_dict.
  cbn [PlanDict.iso PlanDict.f_stop PlanDict.shutter PlanDict.focal_length
       PlanDict.azimuth PlanDict.elevation PlanDict.phase
       PlanDict.exposure_comp].
  pose proof (py_round_error (azimuth (position (celestial_data p))) 1) as E1.
  pose proof (py_round_error (elevation (position (celestial_data p))) 1)
    as E2.
  pose proof (py_round_error (phase (celestial_data p)) 2) as E3.
  pose proof (py_round_error (exposure_comp p) 1) as E4.
  rewrite pow_1 in E1, E2, E4.
  replace (10 ^ 2) with 100 in E3 by (simpl; lra).
  repeat split; lra.
Qed.

(** X17. An azimuth above 359.95 is exported as 360.0: the rounded azimuth
    leaves the interval [0, 360) in which the azimuth itself lies. *)
Theorem to_dict_azimuth_360 (p : ShootingPlan) :
  359.95 < azimuth (position (celestial_data p)) < 360 ->
  PlanDict.azimuth (to_dict p) = 360.
Proof.
  intros H. unfold to_dict. cbn [PlanDict.azimuth].
  rewrite (py_round_near _ 3600) by lra. lra.
Qed.

Lemma to_dict_azimuth_360_witness :
  PlanDict.azimuth
    (to_dict
       (mk_ShootingPlan (mk_datetime 2026 11 4 12 0 0 0)
          (mk_CelestialData (mk_Position 359.97 31) 0.5 384400 31.1 (-8.85))
          (CameraPresets.get_config CLEAR) 0.25))
  = 360.
Proof.
  apply (to_dict_azimuth_360
           (mk_ShootingPlan (mk_datetime 2026 11 4 12 0 0 0)
              (mk_CelestialData (mk_Position 359.97 31) 0.5 384400 31.1
                                (-8.85))
              (CameraPresets.get_config CLEAR) 0.25)).
  cbn. lra.
Defined.

(** X18. In the dictionary of a plan made by [create_shooting_plan] the
    azimuth is between 0 and 360 (both possible), the elevation between
    24.9 and 35.1, the phase between 0 and 1 and the exposure compensation
    between -1 and 2. *)
Theorem to_dict_ranges (self : AstroSession.t) (ts : datetime) :
  let d := to_dict (AstroSession.create_shooting_plan self ts) in
  0 <= PlanDict.azimuth d <= 360 /\
  24.9 <= PlanDict.elevation d <= 35.1 /\
  0 <= PlanDict.phase d <= 1 /\
  -1 <= PlanDict.exposure_comp d <= 2.
Proof.
  unfold to_dict, AstroSession.create_shooting_plan.
  cbn [PlanDict.azimuth PlanDict.elevation PlanDict.phase
       PlanDict.exposure_comp celestial_data exposure_comp].
  pose proof (get_lunar_data_ranges self ts) as ([Ha0 Ha1] & [He0 He1] & [Hp0 Hp1]).
  set (c := AstroSession.get_lunar_data self ts) in *.
  assert (Hx : -1 <= ExposureCalculator.total_compensation c <= 2).
  { unfold ExposureCalculator.total_compensation,
      ExposureCalculator.atmospheric_compensation,
      ExposureCalculator.phase_compensation.
    rewrite (float_lt_false _ 10), (float_lt_false _ 20) by lra.
    destruct (float_lt (elevation (position c)) 30); lra. }
  assert (G : forall (a : Z) (n : nat) (v : R),
            v = IZR a / 10 ^ n -> py_round v n = v).
  { intros a n v ->. apply py_round_grid. }
  assert (R0 : py_round 0 1 = 0) by (apply (G 0%Z); simpl; lra).
  assert (R360 : py_round 360 1 = 360) by (apply (G 3600%Z); simpl; lra).
  assert (Rlo : py_round 24.872 1 = 24.9)
    by (rewrite (py_round_near _ 249) by lra; lra).
  assert (Rhi : py_round 35.128 1 = 35.1)
    by (rewrite (py_round_near _ 351) by lra; lra).
  assert (P0 : py_round 0 2 = 0) by (apply (G 0%Z); simpl; lra).
  assert (P1 : py_round 1 2 = 1) by (apply (G 100%Z); simpl; lra).
  assert (Xlo : py_round (-1) 1 = -1) by (apply (G (-10)%Z); simpl; lra).
  assert (Xhi : py_round 2 1 = 2) by (apply (G 20%Z); simpl; lra).
  pose proof (py_round_mono 0 (azimuth (position c)) 1 Ha0).
  pose proof (py_round_mono (azimuth (position c)) 360 1 ltac:(lra)).
  pose proof (py_round_mono 24.872 (elevation (position c)) 1 He0).
  pose proof (py_round_mono (elevation (position c)) 35.128 1 He1).
  pose proof (py_round_mono 0 (phase c) 2 Hp0).
  pose proof (py_round_mono (phase c) 1 2 Hp1).
  pose proof (py_round_mono (-1) _ 1 (proj1 Hx)).
  pose proof (py_round_mono _ 2 1 (proj2 Hx)).
  repeat split; lra.
Qed.

End PlanExport.

(** ** The time of day of an exported plan *)

Section PlanTime.

Import AstroSession.

Lemma shift_minutes_next_day (t : datetime) (i : Z) :
  hour (shift_minutes t (i + 1440)) = hour (shift_minutes t i) /\
  minute (shift_minutes t (i + 1440)) = minute (shift_minutes t i) /\
  second (shift_minutes t (i + 1440)) = second (shift_minutes t i).
Proof.
  unfold shift_minutes.
  replace (epoch_seconds t + 60 * (i + 1440))
    with (epoch_seconds t + 60 * i + 1 * 86400) by lia.
  rewrite Z.mod_add by lia.
  destruct (ord2ymd ((epoch_seconds t + 60 * i + 1 * 86400) / 86400))
    as [[y m] dd].
  destruct (ord2ymd ((epoch_seconds t + 60 * i) / 86400)) as [[y' m'] dd'].
  cbn [hour minute second]. repeat split.
Qed.

(** X19. The time of an exported plan is the time of day only, eight
    characters long: two plans taken 1440 minutes apart have different
    timestamps and the same exported time. *)
Theorem to_dict_time_of_day
    (self : AstroSession.t) (t u v : datetime) (i : Z) :
  valid_datetime t -> 0 <= i ->
  add_minutes t i = Ok u -> add_minutes t (i + 1440) = Ok v ->
  u <> v /\
  PlanDict.time (to_dict (create_shooting_plan self u))
  = PlanDict.time (to_dict (create_shooting_plan self v)) /\
  String.length (PlanDict.time (to_dict (create_shooting_plan self u)))
  = 8%nat.
Proof.
  intros V Hi Eu Ev.
  apply add_minutes_shift in Eu; try assumption.
  apply add_minutes_shift in Ev; try assumption; try lia.
  subst u v.
  assert (Hus : 0 <= microsecond t < 1000000) by apply V.
  split; [| split].
  - intros E.
    destruct (shift_minutes_fields t i Hus) as (_ & E1 & _).
    destruct (shift_minutes_fields t (i + 1440) Hus) as (_ & E2 & _).
    rewrite E in E1. lia.
  - unfold to_dict. cbn [PlanDict.time timestamp create_shooting_plan].
    unfold strftime_HMS.
    destruct (shift_minutes_next_day t i) as (-> & -> & ->). reflexivity.
  - reflexivity.
Qed.

Lemma to_dict_time_of_day_witness :
  PlanDict.time
    (to_dict (create_shooting_plan (AstroSession.mk 40.7128 (-74.0060))
                (mk_datetime 2026 11 4 23 58 42 7)))
  = PlanDict.time
      (to_dict (create_shooting_plan (AstroSession.mk 40.7128 (-74.0060))
                  (mk_datetime 2026 11 5 23 58 42 7))).
Proof.
  apply (to_dict_time_of_day (AstroSession.mk 40.7128 (-74.0060))
           (mk_datetime 2026 11 4 23 58 42 7)
           (mk_datetime 2026 11 4 23 58 42 7)
           (mk_datetime 2026 11 5 23 58 42 7) 0).
  - repeat split; vm_compute; easy.
  - lia.
  - reflexivity.
  - reflexivity.
Defined.

End PlanTime.

(** ** The exported session *)

Section ExportFailure.

Open Scope R_scope.
Import AstroSession.

Lemma fold_min_spec (l : list R) (x : R) :
  In (fold_left (fun m y => if float_lt y m then y else m) l x) (x :: l) /\
  Forall (fun y => fold_left (fun m y => if float_lt y m then y else m) l x
                   <= y) (x :: l).
Proof.
  revert x. induction l as [| y l IH]; intros x; cbn [fold_left].
  - split; [left; reflexivity | constructor; [lra | constructor]].
  - destruct (Rlt_dec y x) as [Hlt | Hge].
    + rewrite !(float_lt_true y x) by assumption.
      destruct (IH y) as [Hin Hall].
      set (m := fold_left _ l y) in *. split.
      * destruct Hin as [Hin | Hin]; [right; left; exact Hin |].
        right; right; exact Hin.
      * inversion Hall as [| ? ? Hy Hl]; subst.
        constructor; [lra |]. constructor; assumption.
    + rewrite !(float_lt_false y x) by lra.
      destruct (IH x) as [Hin Hall].
      set (m := fold_left _ l x) in *. split.
      * destruct Hin as [Hin | Hin]; [left; exact Hin |].
        right; right; exact Hin.
      * inversion Hall as [| ? ? Hx Hl]; subst.
        constructor; [assumption |]. constructor; [lra | assumption].
Qed.

Lemma fold_max_spec (l : list R) (x : R) :
  In (fold_left (fun m y => if float_lt m y then y else m) l x) (x :: l) /\
  Forall (fun y => y <= fold_left (fun m y => if float_lt m y then y else m)
                          l x) (x :: l).
Proof.
  revert x. induction l as [| y l IH]; intros x; cbn [fold_left].
  - split; [left; reflexivity | constructor; [lra | constructor]].
  - destruct (Rlt_dec x y) as [Hlt | Hge].
    + rewrite !(float_lt_true x y) by assumption.
      destruct (IH y) as [Hin Hall].
      set (m := fold_left _ l y) in *. split.
      * destruct Hin as [Hin | Hin]; [right; left; exact Hin |].
        right; right; exact Hin.
      * inversion Hall as [| ? ? Hy Hl]; subst.
        constructor; [lra |]. constructor; assumption.
    + rewrite !(float_lt_false x y) by lra.
      destruct (IH x) as [Hin Hall].
      set (m := fold_left _ l x) in *. split.
      * destruct Hin as [Hin | Hin]; [left; exact Hin |].
        right; right; exact Hin.
      * inversion Hall as [| ? ? Hx Hl]; subst.
        constructor; [assumption |]. constructor; [lra | assumption].
Qed.

Lemma py_min_max_nonempty (l : list R) :
  l <> [] ->
  exists lo hi,
    py_min l = Ok lo /\ py_max l = Ok hi /\ In lo l /\ In hi l /\
    Forall (fun y => lo <= y <= hi) l.
Proof.
  destruct l as [| x l]; [congruence |]. intros _.
  destruct (fold_min_spec l x) as [Hin Hall].
  destruct (fold_max_spec l x) as [Hin' Hall'].
  eexists. eexists. split; [reflexivity |]. split; [reflexivity |].
  split; [exact Hin |]. split; [exact Hin' |].
  rewrite Forall_forall in *. intros y Hy.
  split; [apply Hall | apply Hall']; exact Hy.
Qed.

Lemma calculate_interval_default (duration_hours : R) :
  TimelapseCalculator.calculate_interval duration_hours 24 30
  = Ok (TimelapseCalculator.mk_settings
          (py_round (duration_hours * 3600 / 720) 1) 720 17.6
          (py_round (duration_hours * 0.75) 1) 24).
Proof.
  unfold TimelapseCalculator.calculate_interval.
  change (24 * 30)%Z with 720%Z. change (720 * 25)%Z with 18000%Z.
  rewrite true_div_nonzero by lra. cbn [bind].
  rewrite (py_round_near (18000 / 1024) 176) by lra.
  repeat f_equal; lra.
Qed.

(** X20. Exporting a session of 0 minutes or less fails: the sequence is
    empty and the minimum of its elevations raises ValueError. *)
Theorem export_session_data_empty
    (self : AstroSession.t) (now_sequence now_export : datetime)
    (duration_minutes : Z) :
  (duration_minutes <= 0)%Z ->
  export_session_data self now_sequence now_export duration_minutes
  = Raise ValueError.
Proof.
  intros H. unfold export_session_data.
  rewrite generate_sequence_no_sample by (left; lia). cbn [bind].
  rewrite calculate_interval_default. reflexivity.
Qed.

Lemma export_session_data_empty_witness :
  export_session_data (AstroSession.mk 40.7128 (-74.0060))
    (mk_datetime 2026 11 4 12 0 0 0) (mk_datetime 2026 11 4 12 0 0 1) 0
  = Raise ValueError.
Proof.
  apply (export_session_data_empty (AstroSession.mk 40.7128 (-74.0060))
           (mk_datetime 2026 11 4 12 0 0 0) (mk_datetime 2026 11 4 12 0 0 1)
           0).
  lia.
Defined.

End ExportFailure.

Section ExportSummary.

Open Scope R_scope.
Import AstroSession.

Lemma generate_sequence_raises
    (self : AstroSession.t) (start : datetime)
    (duration_minutes interval_minutes : Z) :
  valid_datetime start ->
  (0 < duration_minutes)%Z -> (0 < interval_minutes)%Z ->
  ~ representable start
      (interval_minutes * ((duration_minutes - 1) / interval_minutes)) ->
  generate_sequence self start duration_minutes interval_minutes
  = Raise OverflowError.
Proof.
  intros V Hd Hi R.
  pose proof (range_count duration_minutes interval_minutes Hd Hi) as Hn.
  cbv zeta in Hn. destruct Hn as [Hpos _].
  unfold generate_sequence.
  rewrite py_range_positive by lia. cbn [bind].
  apply for_each_raise.
  - intros o Ho. apply in_map_iff in Ho. destruct Ho as [k [<- Hk]].
    destruct (Z.lt_ge_cases
                (epoch_seconds start + 60 * (Z.of_nat k * interval_minutes))
                ((MAXORDINAL + 1) * 86400))%Z as [Hk' | Hk'].
    + left. eexists.
      rewrite add_minutes_ok; [reflexivity | assumption | nia | exact Hk'].
    + right.
      rewrite add_minutes_overflow;
        [reflexivity | assumption | nia | unfold representable; lia].
  - exists (interval_minutes * ((duration_minutes - 1) / interval_minutes))%Z.
    split.
    + apply in_map_iff.
      exists (Z.to_nat ((duration_minutes - 1) / interval_minutes)).
      split; [rewrite Z2Nat.id by lia; lia | apply in_seq; lia].
    + rewrite add_minutes_overflow;
        [reflexivity | assumption | nia | exact R].
Qed.

(** The export of a session whose samples are all datetimes. *)
Lemma export_session_data_ok
    (self : AstroSession.t) (now_sequence now_export : datetime)
    (duration_minutes : Z) :
  valid_datetime now_sequence ->
  (0 < duration_minutes)%Z ->
  representable now_sequence (5 * ((duration_minutes - 1) / 5)) ->
  let plans :=
    map (fun k => create_shooting_plan self
                    (shift_minutes now_sequence (Z.of_nat k * 5)))
        (seq 0 (Z.to_nat ((duration_minutes - 1) / 5 + 1))) in
  let elevations :=
    map (fun p => elevation (position (celestial_data p))) plans in
  exists lo hi,
    In lo elevations /\ In hi elevations /\
    Forall (fun y => lo <= y <= hi) elevations /\
    export_session_data self now_sequence now_export duration_minutes
    = Ok (SessionExport.mk
            (SessionExport.mk_session (isoformat now_export) duration_minutes
               (lat self) (lon self))
            (map to_dict plans)
            (TimelapseCalculator.mk_settings
               (py_round (IZR duration_minutes / 60 * 3600 / 720) 1) 720 17.6
               (py_round (IZR duration_minutes / 60 * 0.75) 1) 24)
            (SessionExport.mk_summary
               (Z.of_nat (List.length plans))
               (format_1f lo ++ degree_sign ++ " - " ++ format_1f hi
                ++ degree_sign)%string
               (Z.of_nat
                  (List.length
                     (filter
                        (fun p => float_lt 30
                                    (elevation (position (celestial_data p))))
                        plans))))).
Proof.
  intros V Hd Hrep plans elevations.
  pose proof (range_count duration_minutes 5 Hd ltac:(lia)) as Hn.
  cbv zeta in Hn. destruct Hn as [Hpos _].
  assert (Hne : elevations <> []).
  { intros E. apply (f_equal (@List.length R)) in E.
    unfold elevations, plans in E.
    rewrite !length_map, length_seq in E. cbn [List.length] in E. lia. }
  destruct (py_min_max_nonempty elevations Hne)
    as (lo & hi & Emin & Emax & Hlo & Hhi & Hall).
  exists lo, hi. split; [exact Hlo |]. split; [exact Hhi |].
  split; [exact Hall |].
  unfold export_session_data.
  rewrite generate_sequence_plans by (assumption || lia).
  cbn [bind]. rewrite calculate_interval_default. cbn [bind].
  fold plans. fold elevations. rewrite Emin, Emax. cbn [bind].
  reflexivity.
Qed.




(** X22. In an exported session the timelapse settings are those of
    duration / 60 hours at 24 frames per second for 30 seconds: 720 frames,
    a storage of 17.6 GB whatever the duration, an interval within 0.05 of
    duration / 12 seconds and a battery time within 0.05 of
    duration / 80 hours. *)
Theorem export_session_data_timelapse
    (self : AstroSession.t) (now_sequence now_export : datetime)
    (duration_minutes : Z) (e : SessionExport.t) :
  export_session_data self now_sequence now_export duration_minutes = Ok e ->
  let s := SessionExport.timelapse_settings e in
  TimelapseCalculator.total_frames s = 720%Z /\
  TimelapseCalculator.playback_fps s = 24%Z /\
  TimelapseCalculator.storage_gb s = 17.6 /\
  -0.05 <= TimelapseCalculator.interval_seconds s - IZR duration_minutes / 12
        <= 0.05 /\
  -0.05 <= TimelapseCalculator.battery_hours s - IZR duration_minutes / 80
        <= 0.05.
Proof.
  unfold export_session_data. intros E.
  destruct (generate_sequence self now_sequence duration_minutes 5)
    as [plans | ex]; [| discriminate].
  cbn [bind] in E. rewrite calculate_interval_default in E. cbn [bind] in E.
  destruct (py_min _) as [lo | ex]; [| discriminate].
  destruct (py_max _) as [hi | ex]; [| discriminate].
  cbn [bind] in E. injection E as <-.
  cbn [SessionExport.timelapse_settings TimelapseCalculator.total_frames
       TimelapseCalculator.playback_fps TimelapseCalculator.storage_gb
       TimelapseCalculator.interval_seconds TimelapseCalculator.battery_hours].
  pose proof (py_round_error (IZR duration_minutes / 60 * 3600 / 720) 1) as E1.
  pose proof (py_round_error (IZR duration_minutes / 60 * 0.75) 1) as E2.
  rewrite pow_1 in E1, E2.
  repeat split; lra.
Qed.

Lemma export_session_data_timelapse_witness :
  exists e,
    export_session_data (AstroSession.mk 40.7128 (-74.0060))
      (mk_datetime 2026 11 4 12 0 0 0) (mk_datetime 2026 11 4 12 0 0 1) 120
    = Ok e /\
    TimelapseCalculator.total_frames (SessionExport.timelapse_settings e)
    = 720%Z /\
    TimelapseCalculator.storage_gb (SessionExport.timelapse_settings e) = 17.6.
Proof.
  assert (V : valid_datetime (mk_datetime 2026 11 4 12 0 0 0))
    by (repeat split; vm_compute; easy).
  assert (Hrep : representable (mk_datetime 2026 11 4 12 0 0 0)
                               (5 * ((120 - 1) / 5)))
    by (vm_compute; reflexivity).
  destruct (export_session_data_ok (AstroSession.mk 40.7128 (-74.0060))
              (mk_datetime 2026 11 4 12 0 0 0)
              (mk_datetime 2026 11 4 12 0 0 1) 120 V ltac:(lia) Hrep)
    as (lo & hi & _ & _ & _ & E).
  eexists. split; [exact E |].
  destruct (export_session_data_timelapse _ _ _ _ _ E) as (F & _ & S & _).
  split; [exact F | exact S].
Defined.

(** X23. Exporting a session of a positive duration whose last sample
    would fall after the year 9999 raises OverflowError. *)
Theorem export_session_data_overflow
    (self : AstroSession.t) (now_sequence now_export : datetime)
    (duration_minutes : Z) :
  valid_datetime now_sequence ->
  (0 < duration_minutes)%Z ->
  ~ representable now_sequence (5 * ((duration_minutes - 1) / 5)) ->
  export_session_data self now_sequence now_export duration_minutes
  = Raise OverflowError.
Proof.
  intros V Hd R. unfold export_session_data.
  rewrite generate_sequence_raises by (assumption || lia). reflexivity.
Qed.

Lemma export_session_data_overflow_witness :
  export_session_data (AstroSession.mk 40.7128 (-74.0060))
    (mk_datetime 9999 12 31 23 0 0 0) (mk_datetime 9999 12 31 23 0 0 1) 120
  = Raise OverflowError.
Proof.
  apply (export_session_data_overflow (AstroSession.mk 40.7128 (-74.0060))
           (mk_datetime 9999 12 31 23 0 0 0)
           (mk_datetime 9999 12 31 23 0 0 1) 120).
  - repeat split; vm_compute; easy.
  - lia.
  - unfold representable. vm_compute. intros H. discriminate H.
Defined.

End ExportSummary.
